(** * flightsearch2: the [search_flights] tool of [server.py]

    A shallow embedding of the one operation of the server: the query sent to
    the fare-search endpoint, the handling of the reply, and the text handed
    back to the caller.

    Conventions.
    - A Python [str] is the [string] of its UTF-8 bytes.  Operations that
      count characters ([len], slicing, indexing) go through [str_chars].
    - A Python [int] is a [Z].  CPython's optional cap on the number of
      decimal digits it converts is not represented.
    - What CPython computes by tables or by IEEE arithmetic (the [repr] of a
      [str], [float] values and their text) is taken from a [PyRuntime].
    - [exn] stands for instances of [Exception].  Signals that derive from
      [BaseException] only (task cancellation, keyboard interrupt) are not
      represented. *)

From Stdlib Require Import ZArith NArith String Ascii List Bool Lia DecimalString.
From Stdlib Require DecimalPos DecimalZ.
Import ListNotations.
Set Warnings "-register-all".
Open Scope string_scope.
Open Scope Z_scope.

(** ** Text *)

Module Text.

(** A byte starts a character unless it has the form [10xxxxxx]. *)
Definition is_lead_byte (c : ascii) : bool :=
  negb (N.eqb (N.land (N_of_ascii c) 192) 128).

(** [chars_acc s] is the run of continuation bytes [s] starts with, and the
    characters that follow it. *)
Fixpoint chars_acc (s : string) : string * list string :=
  match s with
  | EmptyString => (EmptyString, [])
  | String c s' =>
      let '(k, l) := chars_acc s' in
      if is_lead_byte c then (EmptyString, String c k :: l) else (String c k, l)
  end.

(** The characters of a [str], in order. *)
Definition str_chars (s : string) : list string := snd (chars_acc s).

(** [len(s)] *)
Definition str_len (s : string) : nat := List.length (str_chars s).

(** [s[:n]] *)
Definition str_take (n : nat) (s : string) : string :=
  String.concat "" (firstn n (str_chars s)).

(** [s.replace(old, new)] for a non-empty [old]: occurrences are found left
    to right and do not overlap.  [skip] counts the bytes of the current
    occurrence still to pass over. *)
Fixpoint replace_aux (old new : string) (skip : nat) (s : string) : string :=
  match s with
  | EmptyString => EmptyString
  | String c s' =>
      match skip with
      | S k => replace_aux old new k s'
      | O =>
          if String.prefix old s
          then new ++ replace_aux old new (String.length old - 1) s'
          else String c (replace_aux old new 0 s')
      end
  end.

(** [s.replace(old, new)]; an empty [old] matches before every character and
    at the end. *)
Definition str_replace (old new s : string) : string :=
  match old with
  | EmptyString => new ++ String.concat "" (map (fun ch => ch ++ new) (str_chars s))
  | _ => replace_aux old new 0 s
  end.

(** [s.rstrip(c)] for a one-byte [c]. *)
Fixpoint rstrip (c : ascii) (s : string) : string :=
  match s with
  | EmptyString => EmptyString
  | String d s' =>
      match rstrip c s' with
      | EmptyString => if Ascii.eqb d c then EmptyString else String d EmptyString
      | r => String d r
      end
  end.

(** The double quote, as a one-byte string. *)
Definition dquote : string := String (ascii_of_nat 34) EmptyString.

(** The line feed, as a one-byte string. *)
Definition newline : string := String (ascii_of_nat 10) EmptyString.

(** [c * n] *)
Fixpoint str_repeat (c : string) (n : nat) : string :=
  match n with
  | O => EmptyString
  | S k => c ++ str_repeat c k
  end.

(** The string without the bytes equal to [c]. *)
Fixpoint remove_byte (c : ascii) (s : string) : string :=
  match s with
  | EmptyString => EmptyString
  | String d s' => if Ascii.eqb d c then remove_byte c s' else String d (remove_byte c s')
  end.

(** [c] is a byte of ASCII text; the bytes of every other character are
    0x80 or above. *)
Definition is_ascii (c : ascii) : bool := Nat.ltb (nat_of_ascii c) 128.

(** No byte of [s] is ASCII. *)
Fixpoint non_ascii (s : string) : bool :=
  match s with
  | EmptyString => true
  | String d s' => negb (is_ascii d) && non_ascii s'
  end.

(** [c] occurs in [s]. *)
Fixpoint has_byte (c : ascii) (s : string) : bool :=
  match s with
  | EmptyString => false
  | String d s' => Ascii.eqb d c || has_byte c s'
  end.

End Text.

(** ** Numbers as text *)

Module Num.

(** [str(z)] *)
Definition dec (z : Z) : string := NilZero.string_of_int (Z.to_int z).

(** Digits in groups of three from the right, separated by commas. *)
Fixpoint group3 (digits : string) : string :=
  match digits with
  | EmptyString => EmptyString
  | String d rest =>
      match rest with
      | EmptyString => String d EmptyString
      | _ =>
          if Nat.eqb (Nat.modulo (String.length rest) 3) 0
          then String d ("," ++ group3 rest)
          else String d (group3 rest)
      end
  end.

(** [format(z, ',')] *)
Definition format_comma (z : Z) : string :=
  if z <? 0 then "-" ++ group3 (dec (- z)) else group3 (dec z).

End Num.

(** ** Exceptions *)

(** The classes of the exceptions the operation meets.  The first four are
    [httpx.HTTPError] and its subclasses; the others derive from [Exception]
    alone. *)
Inductive exc_class : Type :=
| ConnectError
| TimeoutException
| HTTPStatusError
| OtherHTTPError
| JSONDecodeError
| AttributeError
| TypeError
| ValueError
| KeyError
| IndexError
| OverflowError
| OtherException.

(** [issubclass(c, httpx.HTTPError)] *)
Definition is_HTTPError (c : exc_class) : bool :=
  match c with
  | ConnectError | TimeoutException | HTTPStatusError | OtherHTTPError => true
  | _ => false
  end.

(** An exception: its class and [str(e)]. *)
Record exn : Type := Exn { exc_type : exc_class; exc_str : string }.

(** A computation that returns or raises. *)
Inductive result (A : Type) : Type :=
| Ok (a : A)
| Raise (e : exn).

Arguments Ok {A} a.
Arguments Raise {A} e.

Definition bind {A B : Type} (r : result A) (k : A -> result B) : result B :=
  match r with
  | Ok a => k a
  | Raise e => Raise e
  end.

Notation "x <- r ;; k" := (bind r (fun x => k))
  (at level 61, r at next level, right associativity).

(** [try: body  except ...: handler(e)] *)
Definition try_except {A : Type} (body : result A) (handler : exn -> result A) : result A :=
  match body with
  | Ok a => Ok a
  | Raise e => handler e
  end.

(** ** What the interpreter supplies *)

Record PyRuntime : Type := {
  (** Python [float] values. *)
  pyfloat : Type;
  (** [float(z)]; [None] when the integer is too large ([OverflowError]). *)
  float_of_int : Z -> option pyfloat;
  (** [x + y] on floats. *)
  float_add : pyfloat -> pyfloat -> pyfloat;
  (** [bool(x)] *)
  float_truth : pyfloat -> bool;
  (** [repr(x)], which is also [str(x)]. *)
  float_repr : pyfloat -> string;
  (** The text [json.dumps] gives a float ([NaN] and infinities included). *)
  float_json : pyfloat -> string;
  (** [format(x, ',')] *)
  float_format_comma : pyfloat -> string;
  (** [repr(s)] of a [str]. *)
  str_repr : string -> string
}.

(** ** JSON values *)

Section Values.

Context {rt : PyRuntime}.

(** What [json.loads] builds: [None], [bool], [int], [float], [str], [list]
    and [dict] with [str] keys, in the order of the document. *)
Inductive json : Type :=
| JNull
| JBool (b : bool)
| JInt (z : Z)
| JFloat (f : pyfloat rt)
| JStr (s : string)
| JList (items : list json)
| JObj (members : list (string * json)).

(** [type(v).__name__] *)
Definition type_name (v : json) : string :=
  match v with
  | JNull => "NoneType"
  | JBool _ => "bool"
  | JInt _ => "int"
  | JFloat _ => "float"
  | JStr _ => "str"
  | JList _ => "list"
  | JObj _ => "dict"
  end.

(** The value stored under [k], if any. *)
Fixpoint lookup (k : string) (m : list (string * json)) : option json :=
  match m with
  | [] => None
  | (k', v) :: m' => if String.eqb k' k then Some v else lookup k m'
  end.

(** [v.get(k, default)] *)
Definition py_get (v : json) (k : string) (default : json) : result json :=
  match v with
  | JObj m => Ok (match lookup k m with Some x => x | None => default end)
  | _ => Raise (Exn AttributeError ("'" ++ type_name v ++ "' object has no attribute 'get'"))
  end.

(** [bool(v)] *)
Definition py_truthy (v : json) : bool :=
  match v with
  | JNull => false
  | JBool b => b
  | JInt z => negb (z =? 0)
  | JFloat f => float_truth rt f
  | JStr s => negb (String.eqb s "")
  | JList l => match l with [] => false | _ => true end
  | JObj m => match m with [] => false | _ => true end
  end.

(** [v != s] for a [str] [s] *)
Definition py_ne_str (v : json) (s : string) : bool :=
  match v with
  | JStr t => negb (String.eqb t s)
  | _ => true
  end.

(** [repr(v)] *)
Fixpoint py_repr (v : json) : string :=
  match v with
  | JNull => "None"
  | JBool true => "True"
  | JBool false => "False"
  | JInt z => Num.dec z
  | JFloat f => float_repr rt f
  | JStr s => str_repr rt s
  | JList l => "[" ++ String.concat ", " (map py_repr l) ++ "]"
  | JObj m =>
      "{" ++ String.concat ", "
               (map (fun kv => let '(k, x) := kv in str_repr rt k ++ ": " ++ py_repr x) m)
          ++ "}"
  end.

(** [str(v)], the text of [{v}] in an f-string. *)
Definition py_str (v : json) : string :=
  match v with
  | JStr s => s
  | _ => py_repr v
  end.

(** [int(b)] *)
Definition Z_of_bool (b : bool) : Z := if b then 1 else 0.

(** The integer an [int] or a [bool] counts as in arithmetic. *)
Definition int_value (v : json) : option Z :=
  match v with
  | JInt z => Some z
  | JBool b => Some (Z_of_bool b)
  | _ => None
  end.


Definition unsupported_add (a b : json) : exn :=
  Exn TypeError
      ("unsupported operand type(s) for +: '" ++ type_name a ++ "' and '" ++ type_name b ++ "'").

Definition cannot_concatenate (a b : json) : exn :=
  Exn TypeError
      ("can only concatenate " ++ type_name a ++ " (not " ++ Text.dquote ++ type_name b
         ++ Text.dquote ++ ") to " ++ type_name a).

Definition int_too_large : exn := Exn OverflowError "int too large to convert to float".

(** [z + f] and [f + z]: the integer is converted first. *)
Definition add_int_float (z : Z) (f : pyfloat rt) (int_first : bool) : result json :=
  match float_of_int rt z with
  | Some g => Ok (JFloat (if int_first then float_add rt g f else float_add rt f g))
  | None => Raise int_too_large
  end.

(** [a + b] *)
Definition py_add (a b : json) : result json :=
  match a, b with
  | JInt x, JInt y => Ok (JInt (x + y))
  | JInt x, JBool y => Ok (JInt (x + Z_of_bool y))
  | JBool x, JInt y => Ok (JInt (Z_of_bool x + y))
  | JBool x, JBool y => Ok (JInt (Z_of_bool x + Z_of_bool y))
  | JInt x, JFloat g => add_int_float x g true
  | JBool x, JFloat g => add_int_float (Z_of_bool x) g true
  | JFloat f, JInt y => add_int_float y f false
  | JFloat f, JBool y => add_int_float (Z_of_bool y) f false
  | JFloat f, JFloat g => Ok (JFloat (float_add rt f g))
  | JStr s, JStr t => Ok (JStr (s ++ t))
  | JStr _, _ => Raise (cannot_concatenate a b)
  | JList l, JList l' => Ok (JList (l ++ l'))
  | JList _, _ => Raise (cannot_concatenate a b)
  | _, _ => Raise (unsupported_add a b)
  end.

(** [format(v, ',')], the text of [{v:,}] in an f-string. *)
Definition py_format_comma (v : json) : result string :=
  match v with
  | JInt z => Ok (Num.format_comma z)
  | JBool b => Ok (Num.format_comma (Z_of_bool b))
  | JFloat f => Ok (float_format_comma rt f)
  | JStr _ => Raise (Exn ValueError "Cannot specify ',' with 's'.")
  | _ => Raise (Exn TypeError
                    ("unsupported format string passed to " ++ type_name v ++ ".__format__"))
  end.

(** [len(v)] *)
Definition py_len (v : json) : result nat :=
  match v with
  | JStr s => Ok (Text.str_len s)
  | JList l => Ok (List.length l)
  | JObj m => Ok (List.length m)
  | _ => Raise (Exn TypeError ("object of type '" ++ type_name v ++ "' has no len()"))
  end.

Definition not_subscriptable (v : json) : exn :=
  Exn TypeError ("'" ++ type_name v ++ "' object is not subscriptable").

(** The items [for ... in v[:n]] goes through.  A [dict] is looked up under
    the slice as a key, which it never holds (CPython 3.12; earlier releases
    refuse the slice as unhashable, a [TypeError]). *)
Definition py_slice_items (n : nat) (v : json) : result (list json) :=
  match v with
  | JList l => Ok (firstn n l)
  | JStr s => Ok (map JStr (firstn n (Text.str_chars s)))
  | JObj _ => Raise (Exn KeyError ("slice(None, " ++ Num.dec (Z.of_nat n) ++ ", None)"))
  | _ => Raise (not_subscriptable v)
  end.

(** [v[0]] for a [v] that is truthy. *)
Definition py_first (v : json) : result json :=
  match v with
  | JList (x :: _) => Ok x
  | JList [] => Raise (Exn IndexError "list index out of range")
  | JStr s =>
      match Text.str_chars s with
      | ch :: _ => Ok (JStr ch)
      | [] => Raise (Exn IndexError "string index out of range")
      end
  | JObj _ => Raise (Exn KeyError "0")
  | _ => Raise (not_subscriptable v)
  end.

End Values.

Arguments json : clear implicits.

(** ** The call and the query *)

(** The parameters of [search_flights], once bound. *)
Record args : Type := {
  trip_type : string;
  departure_city : string;
  arrival_city : string;
  departure_date : string;
  return_date : option string;
  adults : Z;
  children : Z;
  infants : Z;
  seat_class : string;
  raw_json : bool
}.

(** What a caller passes: [None] for a parameter left out of the call.  For
    [return_date], [Some None] is an explicit [None]. *)
Record call : Type := {
  arg_trip_type : option string;
  arg_departure_city : option string;
  arg_arrival_city : option string;
  arg_departure_date : option string;
  arg_return_date : option (option string);
  arg_adults : option Z;
  arg_children : option Z;
  arg_infants : option Z;
  arg_seat_class : option string;
  arg_raw_json : option bool
}.

Definition or_default {A : Type} (x : option A) (d : A) : A :=
  match x with
  | Some v => v
  | None => d
  end.

(** The defaults of the signature fill in what the caller left out. *)
Definition bind_defaults (c : call) : args := {|
  trip_type := or_default (arg_trip_type c) "RT";
  departure_city := or_default (arg_departure_city c) "ICN";
  arrival_city := or_default (arg_arrival_city c) "FUK";
  departure_date := or_default (arg_departure_date c) "2026-03-03";
  return_date := or_default (arg_return_date c) (Some "2026-03-09");
  adults := or_default (arg_adults c) 1;
  children := or_default (arg_children c) 0;
  infants := or_default (arg_infants c) 0;
  seat_class := or_default (arg_seat_class c) "Y";
  raw_json := or_default (arg_raw_json c) false
|}.

(** A call that passes nothing. *)
Definition no_arguments : call := {|
  arg_trip_type := None;
  arg_departure_city := None;
  arg_arrival_city := None;
  arg_departure_date := None;
  arg_return_date := None;
  arg_adults := None;
  arg_children := None;
  arg_infants := None;
  arg_seat_class := None;
  arg_raw_json := None
|}.

(** A value of the query: a [str] or an [int]. *)
Inductive param : Type :=
| PStr (s : string)
| PInt (z : Z).

(** [s_dt = departure_date.replace("-", "")] *)
Definition s_dt (a : args) : string := Text.str_replace "-" "" (departure_date a).

(** [e_dt = return_date.replace("-", "") if return_date else ""] *)
Definition e_dt (a : args) : string :=
  match return_date a with
  | Some d => if negb (String.eqb d "") then Text.str_replace "-" "" d else ""
  | None => ""
  end.

Definition endpoint : string := "/flight/api/international/booking/flightInterFareSearchJson".

(** The [params] dictionary; [timestamp] is [int(time.time() * 1000)]. *)
Definition params (timestamp : Z) (a : args) : list (string * param) :=
  [ ("skin", PStr "onlinetour");
    ("resId", PStr "");
    ("soto", PStr "N");
    ("trip", PStr (trip_type a));
    ("startDt", PStr (s_dt a));
    ("endDt", PStr (e_dt a));
    ("sDate1", PStr "");
    ("sDate2", PStr "");
    ("sDate3", PStr "");
    ("sCity1", PStr (departure_city a));
    ("eCity1", PStr (arrival_city a));
    ("eCity1NtDesc", PStr "");
    ("sCity2", PStr (if String.eqb (trip_type a) "RT" then arrival_city a else ""));
    ("eCity2", PStr (if String.eqb (trip_type a) "RT" then departure_city a else ""));
    ("sCity3", PStr "");
    ("eCity3", PStr "");
    ("adt", PInt (adults a));
    ("chd", PInt (children a));
    ("inf", PInt (infants a));
    ("filterAirLine", PStr "");
    ("filterViaNo", PStr "");
    ("seatType", PStr (seat_class a));
    ("best", PStr "Y");
    ("sgc", PStr "");
    ("rgc", PStr "");
    ("partnerCode", PStr "");
    ("eventNum", PStr "");
    ("classJoinNum", PStr "");
    ("partnerNum", PStr "");
    ("fareType", PStr "Y");
    ("eventInd", PStr "");
    ("splitNo", PStr "1000");
    ("epricingYn", PStr "N");
    ("blockGoodsYn", PStr "Y");
    ("summary", PStr "N");
    ("schedule", PStr "Y");
    ("SGMap", PStr "Y");
    ("Host", PStr "Y");
    ("passDataYn", PStr "N");
    ("_", PStr (Num.dec timestamp)) ].

(** [params[k]] *)
Fixpoint param_of (k : string) (q : list (string * param)) : option param :=
  match q with
  | [] => None
  | (k', v) :: q' => if String.eqb k' k then Some v else param_of k q'
  end.

Definition headers : list (string * string) :=
  [ ("User-Agent",
     "Mozilla/5.0 (Windows NT 10.0; Win64; x64) AppleWebKit/537.36 (KHTML, like Gecko) Chrome/120.0.0.0 Safari/537.36");
    ("Referer", "https://www.onlinetour.co.kr/flight/international");
    ("Accept", "application/json, text/javascript, */*; q=0.01");
    ("X-Requested-With", "XMLHttpRequest") ].

(** [url = f"{BASE_URL.rstrip('/')}{endpoint}"] *)
Definition url (base_url : string) : string := Text.rstrip "/" base_url ++ endpoint.

(** The GET request handed to the HTTP client; the timeout is in seconds. *)
Record http_request : Type := {
  req_url : string;
  req_params : list (string * param);
  req_headers : list (string * string);
  req_timeout : Z
}.

(** ** The reply and its rendering *)

(** The pieces of [json.dumps(data, indent=2, ensure_ascii=False)] that do
    not depend on the value. *)
Module Dumps.

Definition hex_digit (n : nat) : string :=
  String.substring n 1 "0123456789abcdef".

(** The text the encoder writes for one byte of a string: the quote, the
    backslash and the bytes below 0x20 are escaped, every other byte is kept. *)
Definition escape_byte (c : ascii) : string :=
  let n := nat_of_ascii c in
  if Nat.eqb n 34 then "\" ++ Text.dquote
  else if Nat.eqb n 92 then "\\"
  else if Nat.eqb n 8 then "\b"
  else if Nat.eqb n 12 then "\f"
  else if Nat.eqb n 10 then "\n"
  else if Nat.eqb n 13 then "\r"
  else if Nat.eqb n 9 then "\t"
  else if Nat.ltb n 32 then "\u00" ++ hex_digit (Nat.div n 16) ++ hex_digit (Nat.modulo n 16)
  else String c EmptyString.

Fixpoint escape (s : string) : string :=
  match s with
  | EmptyString => EmptyString
  | String c s' => escape_byte c ++ escape s'
  end.

Definition encode_str (s : string) : string := Text.dquote ++ escape s ++ Text.dquote.

(** A line break followed by the indentation of [level]. *)
Definition newline_indent (level : nat) : string :=
  Text.newline ++ Text.str_repeat "  " level.

End Dumps.

Section Server.

Context {rt : PyRuntime}.

(** [json.dumps(data, indent=2, ensure_ascii=False)], from nesting [level]. *)
Fixpoint encode (level : nat) (v : json rt) : string :=
  match v with
  | JNull => "null"
  | JBool true => "true"
  | JBool false => "false"
  | JInt z => Num.dec z
  | JFloat f => float_json rt f
  | JStr s => Dumps.encode_str s
  | JList [] => "[]"
  | JList l =>
      "[" ++ Dumps.newline_indent (S level)
          ++ String.concat ("," ++ Dumps.newline_indent (S level)) (map (encode (S level)) l)
          ++ Dumps.newline_indent level ++ "]"
  | JObj [] => "{}"
  | JObj m =>
      "{" ++ Dumps.newline_indent (S level)
          ++ String.concat ("," ++ Dumps.newline_indent (S level))
               (map (fun kv => let '(k, x) := kv in Dumps.encode_str k ++ ": " ++ encode (S level) x) m)
          ++ Dumps.newline_indent level ++ "}"
  end.

Definition json_dumps (data : json rt) : string := encode 0 data.

(** The response of the endpoint as the operation reads it. *)
Record http_response : Type := {
  status_code : Z;
  (** [response.text] *)
  text : string;
  (** [response.json()] *)
  body_json : result (json rt);
  (** [str(e)] of the [HTTPStatusError] built for this response. *)
  status_error : string
}.

(** [response.raise_for_status()] *)
Definition raise_for_status (r : http_response) : result unit :=
  if (200 <=? status_code r) && (status_code r <=? 299)
  then Ok tt
  else Raise (Exn HTTPStatusError (status_error r)).

(** What surrounds one invocation: the clock, the configured base URL and the
    HTTP client. *)
Record env : Type := {
  (** [int(time.time() * 1000)] *)
  time_ms : Z;
  BASE_URL : string;
  (** [await client.get(url, params=params, headers=headers)] *)
  client_get : http_request -> result http_response
}.

(** The card-discount text of an offer: empty unless [event_fares] is truthy. *)
Definition cheapest_event (event_fares total_base_fare : json rt) : result string :=
  if py_truthy event_fares then
    best_event <- py_first event_fares ;;
    best_total <- py_get best_event "TotalSaleFare" total_base_fare ;;
    shown <- py_format_comma best_total ;;
    desc <- py_get best_event "FareTypeDesc" JNull ;;
    Ok (" (Card Discount: " ++ shown ++ " KRW - " ++ py_str desc ++ ")")
  else Ok "".

(** [total_base_fare = sale_fare + tax + q_charge] *)
Definition total_base_fare (item : json rt) : result (json rt) :=
  sale_fare <- py_get item "SaleFare" (JInt 0) ;;
  tax <- py_get item "Tax" (JInt 0) ;;
  q_charge <- py_get item "Qcharge" (JInt 0) ;;
  partial <- py_add sale_fare tax ;;
  py_add partial q_charge.

(** The body of the loop for the offer at index [i]: the block appended to
    [results]. *)
Definition format_offer (i : nat) (item : json rt) : result string :=
  airline <- py_get item "AirLineKor" (JStr "Unknown Airline") ;;
  start_routine <- py_get item "StartRoutine" (JStr "") ;;
  return_routine <- py_get item "ReturnRoutine" (JStr "") ;;
  total <- total_base_fare item ;;
  fare_list <- py_get item "EventFareList" (JObj []) ;;
  event_fares <- py_get fare_list "EventFare" (JList []) ;;
  discount <- cheapest_event event_fares total ;;
  baggage <- py_get item "AdultBagInfo" (JStr "N/A") ;;
  price <- py_format_comma total ;;
  fare_type <- py_get item "FareTypeDesc" (JStr "") ;;
  fare_fix <- py_get item "FareFix" (JStr "") ;;
  Ok (String.concat Text.newline
        [ "[" ++ Num.dec (Z.of_nat (i + 1)) ++ "] " ++ py_str airline;
          "   Route: " ++ py_str start_routine ++ " / " ++ py_str return_routine;
          "   Price: " ++ price ++ " KRW" ++ discount;
          "   Baggage: " ++ py_str baggage;
          "   Fare Type: " ++ py_str fare_type ++ " (" ++ py_str fare_fix ++ ")" ]).

(** [for i, item in enumerate(...)], from index [i] on: each offer leaves its
    block and a rule of thirty dashes. *)
Fixpoint format_offers (i : nat) (items : list (json rt)) : result (list string) :=
  match items with
  | [] => Ok []
  | item :: rest =>
      block <- format_offer i item ;;
      more <- format_offers (S i) rest ;;
      Ok (block :: Text.str_repeat "-" 30 :: more)
  end.

(** Blocks as they stand in [results]: each followed by its rule. *)
Definition ruled (blocks : list string) : list string :=
  flat_map (fun block => [block; Text.str_repeat "-" 30]) blocks.

(** The closing line, present when there are more than ten offers. *)
Definition remainder_line (n : nat) : list string :=
  if Nat.ltb 10 n
  then [ "... and " ++ Num.dec (Z.of_nat (n - 10)) ++ " more results." ]
  else [].

(** The summary of a parsed reply ([raw_json] false). *)
Definition summarize (data : json rt) : result string :=
  summary_info <- py_get data "GoodsSummary" (JObj []) ;;
  err_cnt <- py_get summary_info "errCnt" JNull ;;
  if py_ne_str err_cnt "OK" then
    err_msg <- py_get summary_info "errMsg" (JStr "Unknown error") ;;
    Ok ("API Error: " ++ py_str err_msg)
  else
    goods_list <- py_get data "GoodsList" (JObj []) ;;
    goods <- py_get goods_list "Goods" (JList []) ;;
    if negb (py_truthy goods) then Ok "No flights found for the given criteria."
    else
      n <- py_len goods ;;
      top <- py_slice_items 10 goods ;;
      blocks <- format_offers 0 top ;;
      Ok (String.concat Text.newline
            ([ "Found " ++ Num.dec (Z.of_nat n) ++ " flight offers.";
               Text.str_repeat "-" 50 ]
               ++ blocks ++ remainder_line n)).

(** The inner [try]: the body as JSON, or the text that reports it is not. *)
Definition read_reply (a : args) (response : http_response) : result string :=
  match body_json response with
  | Ok data => if raw_json a then Ok (json_dumps data) else summarize data
  | Raise ex =>
      match exc_type ex with
      | JSONDecodeError =>
          Ok ("Error: API returned non-JSON response. Content start: "
                ++ Text.str_take 200 (text response))
      | _ => Raise ex
      end
  end.

(** The two [except] clauses of the outer [try]. *)
Definition on_error (ex : exn) : result string :=
  if is_HTTPError (exc_type ex)
  then Ok ("Error fetching flight data: " ++ exc_str ex)
  else Ok ("An unexpected error occurred: " ++ exc_str ex).

(** The request the operation sends. *)
Definition request (e : env) (a : args) : http_request := {|
  req_url := url (BASE_URL e);
  req_params := params (time_ms e) a;
  req_headers := headers;
  req_timeout := 30
|}.

Definition search_flights (e : env) (a : args) : result string :=
  try_except
    (response <- client_get e (request e a) ;;
     _ <- raise_for_status response ;;
     read_reply a response)
    on_error.

(** The client returned a response with a 2xx status whose body parsed as
    [data]. *)
Definition parsed_reply (e : env) (a : args) (data : json rt) : Prop :=
  exists response,
    client_get e (request e a) = Ok response
    /\ 200 <= status_code response <= 299
    /\ body_json response = Ok data.

(** [d.get(k, default)] on the members of a [dict]. *)
Definition member_or (k : string) (default : json rt) (m : list (string * json rt)) : json rt :=
  match lookup k m with
  | Some x => x
  | None => default
  end.

End Server.

Arguments http_response : clear implicits.
Arguments env : clear implicits.

(** A call of [search_flights]: the defaults are bound, then the body runs. *)
Definition call_search_flights {rt : PyRuntime} (e : env rt) (c : call) : result string :=
  search_flights e (bind_defaults c).

(** ** A runtime without fractional numbers

    Documents whose numbers are all integers need no float, and [Plain.repr]
    is CPython's [repr] on text whose characters outside ASCII are printable. *)

Module Plain.

Definition backslash : string := "\".

Definition repr_byte (quote : ascii) (c : ascii) : string :=
  let n := nat_of_ascii c in
  if Ascii.eqb c quote || Nat.eqb n 92 then backslash ++ String c EmptyString
  else if Nat.eqb n 9 then "\t"
  else if Nat.eqb n 10 then "\n"
  else if Nat.eqb n 13 then "\r"
  else if Nat.ltb n 32 || Nat.eqb n 127
       then "\x" ++ Dumps.hex_digit (Nat.div n 16) ++ Dumps.hex_digit (Nat.modulo n 16)
  else String c EmptyString.

Fixpoint repr_bytes (quote : ascii) (s : string) : string :=
  match s with
  | EmptyString => EmptyString
  | String c s' => repr_byte quote c ++ repr_bytes quote s'
  end.

(** The double quote is used only for text that holds an apostrophe and no
    double quote. *)
Definition repr (s : string) : string :=
  let quote :=
    if Text.has_byte "'" s && negb (Text.has_byte (ascii_of_nat 34) s)
    then ascii_of_nat 34 else "'"%char in
  String quote (repr_bytes quote s) ++ String quote EmptyString.

Definition no_float {A : Type} (f : Empty_set) : A := match f with end.

Definition runtime : PyRuntime := {|
  pyfloat := Empty_set;
  float_of_int := fun _ => None;
  float_add := fun f _ => f;
  float_truth := no_float;
  float_repr := no_float;
  float_json := no_float;
  float_format_comma := no_float;
  str_repr := repr
|}.

(** A reply with status 200 whose body parsed as [data]. *)
Definition ok_reply (data : json runtime) : http_response runtime := {|
  status_code := 200;
  text := EmptyString;
  body_json := Ok data;
  status_error := EmptyString
|}.

(** Surroundings in which the client answers every request with [r]. *)
Definition answering (r : result (http_response runtime)) : env runtime := {|
  time_ms := 1767225600000;
  BASE_URL := "https://www.onlinetour.co.kr";
  client_get := fun _ => r
|}.

(** A one-way search that asks for the summary. *)
Definition one_way : args := {|
  trip_type := "OW";
  departure_city := "ICN";
  arrival_city := "FUK";
  departure_date := "2026-03-03";
  return_date := None;
  adults := 1;
  children := 0;
  infants := 0;
  seat_class := "Y";
  raw_json := false
|}.

(** The same search, asking for the raw reply. *)
Definition one_way_raw : args := {|
  trip_type := "OW";
  departure_city := "ICN";
  arrival_city := "FUK";
  departure_date := "2026-03-03";
  return_date := None;
  adults := 1;
  children := 0;
  infants := 0;
  seat_class := "Y";
  raw_json := true
|}.

(** The two bytes of the letter e with an acute accent. *)
Definition e_acute : string := String (ascii_of_nat 195) (String (ascii_of_nat 169) EmptyString).

(** The success summary block. *)
Definition summary_ok : string * json runtime := ("GoodsSummary", JObj [("errCnt", JStr "OK")]).

(** The offer of the fare example: three fare components and no discounts. *)
Definition fare_offer : json runtime :=
  JObj [ ("AirLineKor", JStr "Air Test");
         ("SaleFare", JInt 500000);
         ("Tax", JInt 50000);
         ("Qcharge", JInt 10000) ].

(** The offer number [k] of a listing. *)
Definition numbered_offer (k : nat) : json runtime :=
  JObj [ ("AirLineKor", JStr ("Airline " ++ Num.dec (Z.of_nat k)));
         ("SaleFare", JInt (1000 * Z.of_nat k)) ].

(** Fifteen offers, numbered from 1. *)
Definition fifteen_offers : list (json runtime) := map numbered_offer (seq 1 15).

(** A reply that reports success and lists [goods]. *)
Definition listing (goods : list (json runtime)) : json runtime :=
  JObj [ summary_ok; ("GoodsList", JObj [("Goods", JList goods)]) ].

End Plain.

(** ** Vocabulary for further properties *)

(** No text occurs twice in the list. *)
Fixpoint distinct (l : list string) : bool :=
  match l with
  | [] => true
  | x :: l' => negb (existsb (String.eqb x) l') && distinct l'
  end.

(** The keys of the query whose values come from the arguments or the
    clock. *)
Definition input_keys : list string :=
  [ "trip"; "startDt"; "endDt"; "sCity1"; "eCity1"; "sCity2"; "eCity2";
    "adt"; "chd"; "inf"; "seatType"; "_" ].

(** The last byte of a text, if it has one. *)
Fixpoint last_byte (s : string) : option ascii :=
  match s with
  | EmptyString => None
  | String c EmptyString => Some c
  | String _ s' => last_byte s'
  end.

(** The text does not start in the middle of a character. *)
Definition starts_whole (s : string) : bool :=
  match s with
  | EmptyString => true
  | String c _ => Text.is_lead_byte c
  end.

(** Every byte is a continuation byte. *)
Fixpoint continuation_only (s : string) : bool :=
  match s with
  | EmptyString => true
  | String c s' => negb (Text.is_lead_byte c) && continuation_only s'
  end.

(** One character: a lead byte and its continuation bytes. *)
Definition is_character (ch : string) : bool :=
  match ch with
  | EmptyString => false
  | String c k => Text.is_lead_byte c && continuation_only k
  end.

(** The same arguments with [raw_json] set to [b]. *)
Definition with_raw_json (b : bool) (a : args) : args := {|
  trip_type := trip_type a;
  departure_city := departure_city a;
  arrival_city := arrival_city a;
  departure_date := departure_date a;
  return_date := return_date a;
  adults := adults a;
  children := children a;
  infants := infants a;
  seat_class := seat_class a;
  raw_json := b
|}.

(** [v] is a [list]. *)
Definition is_list {rt : PyRuntime} (v : json rt) : bool :=
  match v with
  | JList _ => true
  | _ => false
  end.

(** An exception raised by [r] is not an [httpx.HTTPError]. *)
Definition raises_plain {A : Type} (r : result A) : Prop :=
  forall ex, r = Raise ex -> is_HTTPError (exc_type ex) = false.

(** The fields an offer is rendered from. *)
Definition offer_keys : list string :=
  [ "AirLineKor"; "StartRoutine"; "ReturnRoutine"; "SaleFare"; "Tax"; "Qcharge";
    "EventFareList"; "AdultBagInfo"; "FareTypeDesc"; "FareFix" ].

(** Sample data for the properties below. *)
Module Sample.

(** An offer with two card discounts. *)
Definition discounted_offer : json Plain.runtime :=
  JObj [ ("AirLineKor", JStr "Air Test");
         ("SaleFare", JInt 500000);
         ("Tax", JInt 50000);
         ("Qcharge", JInt 10000);
         ("EventFareList",
          JObj [("EventFare",
                 JList [ JObj [ ("TotalSaleFare", JInt 540000);
                                ("FareTypeDesc", JStr "Card A") ];
                         JObj [ ("TotalSaleFare", JInt 1);
                                ("FareTypeDesc", JStr "Card B") ] ])]) ].

(** An offer whose fare is text. *)
Definition broken_offer : json Plain.runtime := JObj [ ("SaleFare", JStr "500000") ].

(** Eleven offers, and the same with the last one replaced by [null]. *)
Definition eleven : list (json Plain.runtime) := map Plain.numbered_offer (seq 1 11).

Definition eleven_null_last : list (json Plain.runtime) :=
  map Plain.numbered_offer (seq 1 10) ++ [ JNull ].

(** The fare offer with fields the operation does not know. *)
Definition fare_offer_with_more : json Plain.runtime :=
  JObj [ ("GoodsNo", JInt 77);
         ("AirLineKor", JStr "Air Test");
         ("SeatCount", JStr "9");
         ("SaleFare", JInt 500000);
         ("Tax", JInt 50000);
         ("Qcharge", JInt 10000);
         ("Segments", JList [JNull]) ].

(** A reply with status 200 whose body is not JSON. *)
Definition html_reply (body : string) : http_response Plain.runtime := {|
  status_code := 200;
  text := body;
  body_json := Raise (Exn JSONDecodeError "Expecting value: line 1 column 1 (char 0)");
  status_error := EmptyString
|}.

(** A reply with status 200 whose body could not be decoded as text. *)
Definition undecodable_reply : http_response Plain.runtime := {|
  status_code := 200;
  text := EmptyString;
  body_json := Raise (Exn ValueError "'utf-8' codec can't decode byte 0xff");
  status_error := EmptyString
|}.

End Sample.

(** ** Checks on concrete inputs *)

Example dec_ex : Num.dec 560000 = "560000" /\ Num.dec (-7) = "-7" /\ Num.dec 0 = "0".
Proof. repeat split. Qed.

Example format_comma_ex :
  Num.format_comma 560000 = "560,000" /\ Num.format_comma (-1234567) = "-1,234,567"
  /\ Num.format_comma 999 = "999" /\ Num.format_comma 1000 = "1,000".
Proof. repeat split. Qed.

Example replace_ex :
  Text.str_replace "-" "" "2026-03-03" = "20260303"
  /\ Text.str_replace "ab" "x" "aabab-b" = "axx-b"
  /\ Text.str_replace "aa" "b" "aaa" = "ba"
  /\ Text.str_replace "" "-" "abc" = "-a-b-c-".
Proof. repeat split. Qed.

Example rstrip_ex :
  Text.rstrip "/" "https://host//" = "https://host" /\ Text.rstrip "/" "a/b" = "a/b".
Proof. repeat split. Qed.

Example listing_ex :
  search_flights
    (Plain.answering (Ok (Plain.ok_reply (Plain.listing [Plain.fare_offer; JObj []]))))
    Plain.one_way
  = Ok (String.concat Text.newline
          [ "Found 2 flight offers.";
            "--------------------------------------------------";
            "[1] Air Test";
            "   Route:  / ";
            "   Price: 560,000 KRW";
            "   Baggage: N/A";
            "   Fare Type:  ()";
            "------------------------------";
            "[2] Unknown Airline";
            "   Route:  / ";
            "   Price: 0 KRW";
            "   Baggage: N/A";
            "   Fare Type:  ()";
            "------------------------------" ]).
Proof. reflexivity. Qed.

Example discount_ex :
  format_offer 0
    (JObj [ ("SaleFare", JInt 1300000);
            ("EventFareList",
             JObj [("EventFare",
                    JList [ JObj [("TotalSaleFare", JInt 1234567)];
                            JObj [("TotalSaleFare", JInt 1)] ])]) ]
     : json Plain.runtime)
  = Ok (String.concat Text.newline
          [ "[1] Unknown Airline";
            "   Route:  / ";
            "   Price: 1,300,000 KRW (Card Discount: 1,234,567 KRW - None)";
            "   Baggage: N/A";
            "   Fare Type:  ()" ]).
Proof. reflexivity. Qed.

(** Fares given as text are concatenated by [+], and the price line then
    refuses the result. *)
Example text_fares_ex :
  search_flights
    (Plain.answering
       (Ok (Plain.ok_reply
              (Plain.listing
                 [ JObj [ ("SaleFare", JStr "500000"); ("Tax", JStr "50000");
                          ("Qcharge", JStr "10000") ] ]))))
    Plain.one_way
  = Ok "An unexpected error occurred: Cannot specify ',' with 's'.".
Proof. reflexivity. Qed.

(** A fare that is present but [null] is not counted as 0. *)
Example null_fare_ex :
  search_flights
    (Plain.answering
       (Ok (Plain.ok_reply (Plain.listing [ JObj [ ("SaleFare", JNull) ] ]))))
    Plain.one_way
  = Ok "An unexpected error occurred: unsupported operand type(s) for +: 'NoneType' and 'int'".
Proof. reflexivity. Qed.

(** A reply that is not an object, and a summary block that is [null]. *)
Example not_an_object_ex :
  search_flights (Plain.answering (Ok (Plain.ok_reply (JList [])))) Plain.one_way
  = Ok "An unexpected error occurred: 'list' object has no attribute 'get'"
  /\ search_flights
       (Plain.answering (Ok (Plain.ok_reply (JObj [("GoodsSummary", JNull)]))))
       Plain.one_way
     = Ok "An unexpected error occurred: 'NoneType' object has no attribute 'get'".
Proof. split; reflexivity. Qed.

Example timeout_ex :
  search_flights (Plain.answering (Raise (Exn TimeoutException "timed out"))) Plain.one_way
  = Ok "Error fetching flight data: timed out".
Proof. reflexivity. Qed.

Example status_ex :
  search_flights
    (Plain.answering
       (Ok {| status_code := 503; text := "busy"; body_json := Ok JNull;
              status_error := "Server error '503 Service Unavailable'" |}))
    Plain.one_way
  = Ok "Error fetching flight data: Server error '503 Service Unavailable'".
Proof. reflexivity. Qed.

Example non_json_ex :
  search_flights
    (Plain.answering
       (Ok {| status_code := 200; text := "<html>";
              body_json := Raise (Exn JSONDecodeError "Expecting value");
              status_error := "" |}))
    Plain.one_way
  = Ok "Error: API returned non-JSON response. Content start: <html>".
Proof. reflexivity. Qed.

Example default_call_ex :
  param_of "endDt" (params 0 (bind_defaults no_arguments)) = Some (PStr "20260309")
  /\ param_of "startDt" (params 0 (bind_defaults no_arguments)) = Some (PStr "20260303")
  /\ param_of "sCity2" (params 0 (bind_defaults no_arguments)) = Some (PStr "FUK")
  /\ param_of "eCity2" (params 0 (bind_defaults no_arguments)) = Some (PStr "ICN")
  /\ url "https://www.onlinetour.co.kr/"
     = "https://www.onlinetour.co.kr/flight/api/international/booking/flightInterFareSearchJson".
Proof. repeat split. Qed.

Example str_take_ex :
  Text.str_take 2 ("a" ++ Plain.e_acute ++ "b") = "a" ++ Plain.e_acute
  /\ Text.str_len ("a" ++ Plain.e_acute ++ "b") = 3%nat.
Proof. split; reflexivity. Qed.

(** ** Text lemmas *)

Lemma prefix_empty (s : string) : String.prefix "" s = true.
Proof. destruct s; reflexivity. Qed.

Lemma replace_aux_hyphen (s : string) :
  Text.replace_aux "-" "" 0 s = Text.remove_byte "-" s.
Proof.
  induction s as [| c s IH]; [reflexivity |].
  cbn [Text.replace_aux Text.remove_byte String.prefix String.length Nat.sub].
  rewrite prefix_empty.
  destruct (ascii_dec "-" c) as [E | NE].
  - subst c. cbn. exact IH.
  - destruct (Ascii.eqb_spec c "-") as [E | _]; [congruence |].
    now rewrite IH.
Qed.

(** Replacing the hyphen by nothing deletes every hyphen and nothing else. *)
Lemma str_replace_hyphen (s : string) :
  Text.str_replace "-" "" s = Text.remove_byte "-" s.
Proof. exact (replace_aux_hyphen s). Qed.

Lemma remove_byte_app (c : ascii) (s t : string) :
  Text.remove_byte c (s ++ t) = Text.remove_byte c s ++ Text.remove_byte c t.
Proof.
  induction s as [| d s IH]; [reflexivity |].
  cbn. destruct (Ascii.eqb d c); cbn; now rewrite IH.
Qed.

Lemma remove_byte_absent (c : ascii) (s : string) :
  Text.has_byte c s = false -> Text.remove_byte c s = s.
Proof.
  induction s as [| d s IH]; [reflexivity |].
  cbn. destruct (Ascii.eqb d c); cbn; [discriminate |].
  intros H. now rewrite IH.
Qed.

Lemma has_byte_remove_byte (c : ascii) (s : string) :
  Text.has_byte c (Text.remove_byte c s) = false.
Proof.
  induction s as [| d s IH]; [reflexivity |].
  cbn. destruct (Ascii.eqb d c) eqn:E; [exact IH |].
  cbn. now rewrite E, IH.
Qed.

(** ** The query *)

Lemma param_startDt (timestamp : Z) (a : args) :
  param_of "startDt" (params timestamp a) = Some (PStr (s_dt a)).
Proof. reflexivity. Qed.

Lemma param_endDt (timestamp : Z) (a : args) :
  param_of "endDt" (params timestamp a) = Some (PStr (e_dt a)).
Proof. reflexivity. Qed.

Lemma param_sCity2 (timestamp : Z) (a : args) :
  param_of "sCity2" (params timestamp a)
  = Some (PStr (if String.eqb (trip_type a) "RT" then arrival_city a else "")).
Proof. reflexivity. Qed.

Lemma param_eCity2 (timestamp : Z) (a : args) :
  param_of "eCity2" (params timestamp a)
  = Some (PStr (if String.eqb (trip_type a) "RT" then departure_city a else "")).
Proof. reflexivity. Qed.

(** C7. The date tokens of the query are the dates with every hyphen
    deleted, byte for byte: [startDt] comes from the departure date and
    [endDt] from a given return date; a date made of three hyphen-free parts
    joined by hyphens becomes the three parts side by side, and
    2026-03-03 becomes 20260303. *)
Theorem C7_date_tokens_drop_hyphens :
  forall (timestamp : Z) (a : args),
    param_of "startDt" (params timestamp a)
    = Some (PStr (Text.remove_byte "-" (departure_date a)))
    /\ (forall d, return_date a = Some d ->
                  param_of "endDt" (params timestamp a) = Some (PStr (Text.remove_byte "-" d)))
    /\ (forall y m d,
           Text.has_byte "-" y = false -> Text.has_byte "-" m = false ->
           Text.has_byte "-" d = false ->
           Text.str_replace "-" "" (y ++ "-" ++ m ++ "-" ++ d) = y ++ m ++ d)
    /\ (forall s, Text.has_byte "-" (Text.str_replace "-" "" s) = false)
    /\ Text.str_replace "-" "" "2026-03-03" = "20260303".
Proof.
  intros timestamp a. repeat split.
  - rewrite param_startDt. unfold s_dt. now rewrite str_replace_hyphen.
  - intros d Hd. rewrite param_endDt. unfold e_dt. rewrite Hd.
    destruct (String.eqb_spec d "") as [E | _]; cbn [negb].
    + now subst d.
    + now rewrite str_replace_hyphen.
  - intros y m d Hy Hm Hd.
    rewrite str_replace_hyphen, !remove_byte_app.
    now rewrite (remove_byte_absent _ _ Hy), (remove_byte_absent _ _ Hm),
      (remove_byte_absent _ _ Hd).
  - intros s. rewrite str_replace_hyphen. apply has_byte_remove_byte.
Qed.

(** C8. With trip type OW, and with any trip type other than RT, the
    return-leg cities [sCity2] and [eCity2] of the query are empty; with RT
    they are the arrival city and the departure city, in that order. *)
Theorem C8_return_leg_cities :
  forall (timestamp : Z) (a : args),
    (trip_type a = "OW" ->
       param_of "sCity2" (params timestamp a) = Some (PStr "")
       /\ param_of "eCity2" (params timestamp a) = Some (PStr ""))
    /\ (trip_type a <> "RT" ->
       param_of "sCity2" (params timestamp a) = Some (PStr "")
       /\ param_of "eCity2" (params timestamp a) = Some (PStr ""))
    /\ (trip_type a = "RT" ->
       param_of "sCity2" (params timestamp a) = Some (PStr (arrival_city a))
       /\ param_of "eCity2" (params timestamp a) = Some (PStr (departure_city a))).
Proof.
  intros timestamp a. rewrite param_sCity2, param_eCity2.
  destruct (String.eqb_spec (trip_type a) "RT") as [E | NE].
  - split; [| split].
    + intros OW. rewrite E in OW. discriminate OW.
    + intros NE. contradiction.
    + intros _. split; reflexivity.
  - split; [| split].
    + intros _. split; reflexivity.
    + intros _. split; reflexivity.
    + intros RT. contradiction.
Qed.

(** C2, as the code has it.  When [return_date] is passed as [None] or as the
    empty string, [endDt] is the empty string whatever the trip type; when
    the parameter is left out of the call, its default 2026-03-09 applies and
    [endDt] is 20260309. *)
Theorem C2_end_date_without_return_date :
  forall (timestamp : Z) (c : call),
    (arg_return_date c = Some None \/ arg_return_date c = Some (Some "") ->
       param_of "endDt" (params timestamp (bind_defaults c)) = Some (PStr ""))
    /\ (arg_return_date c = None ->
       param_of "endDt" (params timestamp (bind_defaults c)) = Some (PStr "20260309")).
Proof.
  intros timestamp c. rewrite param_endDt. unfold e_dt, bind_defaults. cbn.
  split.
  - intros [H | H]; rewrite H; reflexivity.
  - intros H. rewrite H. reflexivity.
Qed.

(** C2 as stated fails: a one-way call that leaves [return_date] out sends
    [endDt] 20260309, not the empty string. *)
Lemma C2_omitted_return_date_is_defaulted :
  let c := {| arg_trip_type := Some "OW";
              arg_departure_city := None;
              arg_arrival_city := None;
              arg_departure_date := None;
              arg_return_date := None;
              arg_adults := None;
              arg_children := None;
              arg_infants := None;
              arg_seat_class := None;
              arg_raw_json := None |} in
  arg_return_date c = None
  /\ param_of "endDt" (params 0 (bind_defaults c)) = Some (PStr "20260309")
  /\ param_of "endDt" (params 0 (bind_defaults c)) <> Some (PStr "").
Proof. cbn. repeat split. discriminate. Qed.

(** ** The reply *)

Section Reply.

Context {rt : PyRuntime}.

Lemma raise_for_status_2xx (r : http_response rt) :
  200 <= status_code r <= 299 -> raise_for_status r = Ok tt.
Proof.
  intros [Hlo Hhi]. unfold raise_for_status.
  apply Z.leb_le in Hlo. apply Z.leb_le in Hhi. now rewrite Hlo, Hhi.
Qed.

Lemma raise_for_status_other (r : http_response rt) :
  ~ 200 <= status_code r <= 299 ->
  raise_for_status r = Raise (Exn HTTPStatusError (status_error r)).
Proof.
  intros H. unfold raise_for_status.
  destruct (200 <=? status_code r) eqn:Hlo; destruct (status_code r <=? 299) eqn:Hhi;
    try reflexivity.
  apply Z.leb_le in Hlo. apply Z.leb_le in Hhi. exfalso. apply H. now split.
Qed.

(** After a parsed reply the operation is the formatter under the handlers. *)
Lemma search_flights_parsed (e : env rt) (a : args) (data : json rt) :
  parsed_reply e a data ->
  search_flights e a
  = try_except (if raw_json a then Ok (json_dumps data) else summarize data) on_error.
Proof.
  intros (r & Hget & Hstatus & Hbody).
  unfold search_flights. rewrite Hget. cbn [bind].
  rewrite (raise_for_status_2xx r Hstatus). cbn [bind].
  unfold read_reply. now rewrite Hbody.
Qed.

Lemma on_error_returns (ex : exn) : exists s, on_error ex = Ok s.
Proof. unfold on_error. destruct (is_HTTPError (exc_type ex)); eauto. Qed.

Lemma py_get_members (m : list (string * json rt)) (k : string) (default : json rt) :
  py_get (JObj m) k default = Ok (member_or k default m).
Proof. reflexivity. Qed.

Lemma py_ne_str_true (v : json rt) (s : string) :
  v <> JStr s -> py_ne_str v s = true.
Proof.
  intros H. destruct v; try reflexivity. cbn.
  destruct (String.eqb_spec s0 s) as [E | _]; [subst; contradiction | reflexivity].
Qed.

Lemma py_ne_str_same (s : string) : py_ne_str (JStr s : json rt) s = false.
Proof. cbn. now rewrite String.eqb_refl. Qed.

(** The summary of a reply whose error count is not the text OK. *)
Lemma summarize_error (members summary : list (string * json rt)) :
  member_or "GoodsSummary" (JObj []) members = JObj summary ->
  lookup "errCnt" summary <> Some (JStr "OK") ->
  summarize (JObj members)
  = Ok ("API Error: " ++ py_str (member_or "errMsg" (JStr "Unknown error") summary)).
Proof.
  intros Hs Hcnt. unfold summarize.
  rewrite py_get_members, Hs. cbn [bind]. rewrite py_get_members. cbn [bind].
  rewrite py_ne_str_true.
  - now rewrite py_get_members.
  - unfold member_or. destruct (lookup "errCnt" summary) as [v |]; [| discriminate].
    intros ->. now apply Hcnt.
Qed.

(** The summary of a reply that reports success, up to the offers. *)
Lemma summarize_ok (members summary : list (string * json rt)) :
  lookup "GoodsSummary" members = Some (JObj summary) ->
  lookup "errCnt" summary = Some (JStr "OK") ->
  summarize (JObj members)
  = (goods_list <- py_get (JObj members) "GoodsList" (JObj []) ;;
     goods <- py_get goods_list "Goods" (JList []) ;;
     if negb (py_truthy goods) then Ok "No flights found for the given criteria."
     else
       n <- py_len goods ;;
       top <- py_slice_items 10 goods ;;
       blocks <- format_offers 0 top ;;
       Ok (String.concat Text.newline
             ([ "Found " ++ Num.dec (Z.of_nat n) ++ " flight offers.";
                Text.str_repeat "-" 50 ]
                ++ blocks ++ remainder_line n))).
Proof.
  intros Hs Hcnt. unfold summarize.
  rewrite py_get_members. unfold member_or at 1. rewrite Hs. cbn [bind].
  rewrite py_get_members. unfold member_or at 1. rewrite Hcnt. cbn [bind].
  now rewrite py_ne_str_same.
Qed.

End Reply.

(** ** Failures and fixed messages *)

(** C1. Whatever the arguments and whatever the client does, the operation
    returns text and raises nothing.  A failure of the request that is an
    [httpx.HTTPError] (a timeout and a refused connection are) and a status
    outside 200..299 give the text that starts with
    [Error fetching flight data: ]; any other exception gives the text that
    starts with [An unexpected error occurred: ]; a body that is not JSON
    gives the text that shows its first 200 characters. *)
Theorem C1_search_flights_returns_text :
  forall (rt : PyRuntime) (e : env rt) (a : args),
    (exists s, search_flights e a = Ok s)
    /\ (forall ex,
           client_get e (request e a) = Raise ex ->
           search_flights e a
           = Ok ((if is_HTTPError (exc_type ex)
                  then "Error fetching flight data: "
                  else "An unexpected error occurred: ") ++ exc_str ex))
    /\ is_HTTPError TimeoutException = true
    /\ is_HTTPError ConnectError = true
    /\ (forall r,
           client_get e (request e a) = Ok r ->
           ~ 200 <= status_code r <= 299 ->
           search_flights e a = Ok ("Error fetching flight data: " ++ status_error r))
    /\ (forall r ex,
           client_get e (request e a) = Ok r ->
           200 <= status_code r <= 299 ->
           body_json r = Raise ex ->
           exc_type ex = JSONDecodeError ->
           search_flights e a
           = Ok ("Error: API returned non-JSON response. Content start: "
                   ++ Text.str_take 200 (text r))).
Proof.
  intros rt e a. split; [| split; [| split; [| split; [| split]]]].
  - unfold search_flights, try_except.
    match goal with |- exists s, match ?b with _ => _ end = _ => destruct b as [s | ex] end.
    + now exists s.
    + apply on_error_returns.
  - intros ex Hget. unfold search_flights. rewrite Hget. cbn [bind try_except].
    unfold on_error. now destruct (is_HTTPError (exc_type ex)).
  - reflexivity.
  - reflexivity.
  - intros r Hget Hstatus. unfold search_flights. rewrite Hget. cbn [bind].
    now rewrite (raise_for_status_other r Hstatus).
  - intros r ex Hget Hstatus Hbody Hcls. unfold search_flights. rewrite Hget. cbn [bind].
    rewrite (raise_for_status_2xx r Hstatus). cbn [bind].
    unfold read_reply. now rewrite Hbody, Hcls.
Qed.

(** C5. A parsed reply (summary asked for) that is an object, whose summary
    block is an object or is missing, and whose [errCnt] there is not the
    text OK, gives [API Error: ] followed by [errMsg]: the message itself
    when it is text, [Unknown error] when there is none. *)
Theorem C5_error_count_not_ok :
  forall (rt : PyRuntime) (e : env rt) (a : args) (members summary : list (string * json rt)),
    parsed_reply e a (JObj members) ->
    raw_json a = false ->
    member_or "GoodsSummary" (JObj []) members = JObj summary ->
    lookup "errCnt" summary <> Some (JStr "OK") ->
    search_flights e a
    = Ok ("API Error: " ++ py_str (member_or "errMsg" (JStr "Unknown error") summary))
    /\ (forall m, lookup "errMsg" summary = Some (JStr m) ->
                  search_flights e a = Ok ("API Error: " ++ m))
    /\ (lookup "errMsg" summary = Some (JStr "No fares found") ->
        search_flights e a = Ok "API Error: No fares found")
    /\ (lookup "errMsg" summary = None ->
        search_flights e a = Ok "API Error: Unknown error").
Proof.
  intros rt e a members summary Hreply Hraw Hs Hcnt.
  assert (H : search_flights e a
              = Ok ("API Error: "
                      ++ py_str (member_or "errMsg" (JStr "Unknown error") summary))).
  { rewrite (search_flights_parsed e a _ Hreply), Hraw.
    now rewrite (summarize_error members summary Hs Hcnt). }
  split; [exact H |]. unfold member_or in H.
  split; [| split].
  - intros m Hm. rewrite Hm in H. exact H.
  - intros Hm. rewrite Hm in H. exact H.
  - intros Hm. rewrite Hm in H. exact H.
Qed.

(** C5 holds of a reply whose error count is 1 and whose message is
    No fares found. *)
Lemma C5_error_count_not_ok_witness :
  search_flights
    (Plain.answering
       (Ok (Plain.ok_reply
              (JObj [("GoodsSummary",
                      JObj [("errCnt", JStr "1"); ("errMsg", JStr "No fares found")])]))))
    Plain.one_way
  = Ok "API Error: No fares found".
Proof.
  refine (proj1 (proj2 (proj2
            (C5_error_count_not_ok Plain.runtime _ _ _
               [("errCnt", JStr "1"); ("errMsg", JStr "No fares found")] _ _ _ _))) _).
  - eexists. split; [reflexivity |]. split; [| reflexivity]. cbn. lia.
  - reflexivity.
  - reflexivity.
  - cbn. discriminate.
  - reflexivity.
Defined.

(** C10. A parsed reply (summary asked for) that is an object with no
    [GoodsSummary] key gives exactly [API Error: Unknown error]; it is
    neither the no-results message nor a listing. *)
Theorem C10_missing_summary_block :
  forall (rt : PyRuntime) (e : env rt) (a : args) (members : list (string * json rt)),
    parsed_reply e a (JObj members) ->
    raw_json a = false ->
    lookup "GoodsSummary" members = None ->
    search_flights e a = Ok "API Error: Unknown error".
Proof.
  intros rt e a members Hreply Hraw Hnone.
  rewrite (search_flights_parsed e a _ Hreply), Hraw.
  rewrite (summarize_error members []).
  - reflexivity.
  - unfold member_or. now rewrite Hnone.
  - discriminate.
Qed.

(** C10 holds of a reply that lists offers and has no summary block. *)
Lemma C10_missing_summary_block_witness :
  search_flights
    (Plain.answering
       (Ok (Plain.ok_reply
              (JObj [("GoodsList", JObj [("Goods", JList [Plain.fare_offer])])]))))
    Plain.one_way
  = Ok "API Error: Unknown error".
Proof.
  eapply (C10_missing_summary_block Plain.runtime).
  - eexists. split; [reflexivity |]. split; [| reflexivity]. cbn. lia.
  - reflexivity.
  - reflexivity.
Defined.

(** C6. A parsed reply (summary asked for) that is an object, whose summary
    block has [errCnt] OK, and whose offers are missing or empty (no
    [GoodsList], or a [GoodsList] object whose [Goods] is missing, an empty
    list or another falsy value) gives exactly
    [No flights found for the given criteria.] *)
Theorem C6_no_offers :
  forall (rt : PyRuntime) (e : env rt) (a : args)
         (members summary goods_list : list (string * json rt)),
    parsed_reply e a (JObj members) ->
    raw_json a = false ->
    lookup "GoodsSummary" members = Some (JObj summary) ->
    lookup "errCnt" summary = Some (JStr "OK") ->
    member_or "GoodsList" (JObj []) members = JObj goods_list ->
    py_truthy (member_or "Goods" (JList []) goods_list) = false ->
    search_flights e a = Ok "No flights found for the given criteria.".
Proof.
  intros rt e a members summary goods_list Hreply Hraw Hs Hcnt Hlist Hgoods.
  rewrite (search_flights_parsed e a _ Hreply), Hraw.
  rewrite (summarize_ok members summary Hs Hcnt).
  rewrite py_get_members, Hlist. cbn [bind]. rewrite py_get_members. cbn [bind].
  now rewrite Hgoods.
Qed.

(** C6 holds of a reply with an empty offer list, and of one with no offer
    list at all. *)
Lemma C6_no_offers_witness :
  search_flights (Plain.answering (Ok (Plain.ok_reply (Plain.listing [])))) Plain.one_way
  = Ok "No flights found for the given criteria."
  /\ search_flights
       (Plain.answering (Ok (Plain.ok_reply (JObj [Plain.summary_ok])))) Plain.one_way
     = Ok "No flights found for the given criteria.".
Proof.
  split.
  - eapply (C6_no_offers Plain.runtime _ _ _ [("errCnt", JStr "OK")] [("Goods", JList [])]).
    + eexists. split; [reflexivity |]. split; [| reflexivity]. cbn. lia.
    + reflexivity.
    + reflexivity.
    + reflexivity.
    + reflexivity.
    + reflexivity.
  - eapply (C6_no_offers Plain.runtime _ _ _ [("errCnt", JStr "OK")] []).
    + eexists. split; [reflexivity |]. split; [| reflexivity]. cbn. lia.
    + reflexivity.
    + reflexivity.
    + reflexivity.
    + reflexivity.
    + reflexivity.
Defined.

(** ** The raw reply *)

Lemma escape_byte_non_ascii (c : ascii) :
  Text.is_ascii c = false -> Dumps.escape_byte c = String c EmptyString.
Proof.
  destruct c as [b0 b1 b2 b3 b4 b5 b6 b7].
  destruct b7; [| destruct b0, b1, b2, b3, b4, b5, b6; discriminate].
  intros _. destruct b0, b1, b2, b3, b4, b5, b6; reflexivity.
Qed.

Lemma escape_non_ascii (s : string) :
  Text.non_ascii s = true -> Dumps.escape s = s.
Proof.
  induction s as [| c s IH]; [reflexivity |].
  cbn [Text.non_ascii Dumps.escape]. intros H.
  apply andb_prop in H. destruct H as [Hc Hs].
  apply negb_true_iff in Hc.
  now rewrite (escape_byte_non_ascii c Hc), (IH Hs).
Qed.

Lemma string_app_assoc (s t u : string) : (s ++ t) ++ u = s ++ t ++ u.
Proof. induction s as [| c s IH]; [reflexivity | cbn; now rewrite IH]. Qed.

Lemma escape_app (s t : string) :
  Dumps.escape (s ++ t) = Dumps.escape s ++ Dumps.escape t.
Proof.
  induction s as [| c s IH]; [reflexivity |].
  cbn [append Dumps.escape]. now rewrite IH, string_app_assoc.
Qed.

Lemma str_repeat_two_spaces (n : nat) :
  Text.str_repeat "  " n = Text.str_repeat " " (2 * n).
Proof.
  induction n as [| n IH]; [reflexivity |].
  replace (2 * S n)%nat with (S (S (2 * n))) by lia.
  cbn [Text.str_repeat append]. now rewrite IH.
Qed.

Lemma newline_indent_spaces (n : nat) (rest : string) :
  Dumps.newline_indent n ++ rest = Text.newline ++ Text.str_repeat " " (2 * n) ++ rest.
Proof.
  unfold Dumps.newline_indent. now rewrite str_repeat_two_spaces, string_app_assoc.
Qed.

Lemma separator_spaces (n : nat) :
  "," ++ Dumps.newline_indent n = "," ++ Text.newline ++ Text.str_repeat " " (2 * n).
Proof. unfold Dumps.newline_indent. now rewrite str_repeat_two_spaces. Qed.

(** A byte that is neither a control byte, nor the quote, nor the backslash
    is written as it is. *)
Lemma escape_byte_kept (c : ascii) :
  (32 <= nat_of_ascii c)%nat -> nat_of_ascii c <> 34%nat -> nat_of_ascii c <> 92%nat ->
  Dumps.escape_byte c = String c EmptyString.
Proof.
  intros Hlo Hq Hb. unfold Dumps.escape_byte.
  repeat match goal with
         | |- context [Nat.eqb ?x ?y] => destruct (Nat.eqb_spec x y); [lia |]
         end.
  destruct (Nat.ltb_spec (nat_of_ascii c) 32); [lia | reflexivity].
Qed.

(** A control byte without a short escape is written as a [\u] escape with
    four hexadecimal digits. *)
Lemma escape_byte_control (c : ascii) :
  (nat_of_ascii c < 32)%nat ->
  ~ In (nat_of_ascii c) [8; 9; 10; 12; 13]%nat ->
  Dumps.escape_byte c
  = "\u00" ++ Dumps.hex_digit (Nat.div (nat_of_ascii c) 16)
           ++ Dumps.hex_digit (Nat.modulo (nat_of_ascii c) 16).
Proof.
  intros Hlt Hnot. unfold Dumps.escape_byte.
  repeat match goal with
         | |- context [Nat.eqb ?x ?y] =>
             destruct (Nat.eqb_spec x y) as [E | _];
             [first [lia | exfalso; apply Hnot; rewrite E; cbn; tauto] |]
         end.
  destruct (Nat.ltb_spec (nat_of_ascii c) 32); [reflexivity | lia].
Qed.

(** C9. With [raw_json] true, a parsed reply comes back as
    [json.dumps(data, indent=2, ensure_ascii=False)] of the parsed value,
    whatever the value holds (no field of it is read).  The dump is laid
    out as follows.  [None], [True] and [False] are written [null], [true]
    and [false], an integer in decimal, a float as the runtime writes it, a
    text between double quotes.  An empty list is [[]] and an empty object
    [{}].  A list or an object that is not empty opens its bracket, puts
    each item on a line of its own indented by two spaces for each level of
    nesting, separates the items by a comma at the end of the line, and
    closes its bracket on a line of its own at the indentation of the line
    that opened it; a member of an object is its quoted key, a colon, a
    space and its value.  Inside the quotes only the quote, the backslash
    and the bytes below 0x20 are escaped: every other byte, so every byte of
    a character outside ASCII, stands as it is. *)
Theorem C9_raw_json_is_the_dump :
  forall (rt : PyRuntime) (e : env rt) (a : args) (data : json rt),
    parsed_reply e a data ->
    raw_json a = true ->
    search_flights e a = Ok (json_dumps data)
    /\ (forall s, Text.non_ascii s = true ->
                  json_dumps (JStr s : json rt) = Text.dquote ++ s ++ Text.dquote)
    /\ (forall s t u, Text.non_ascii t = true ->
                      Dumps.escape (s ++ t ++ u) = Dumps.escape s ++ t ++ Dumps.escape u)
    /\ (forall v : json rt, json_dumps v = encode 0 v)
    /\ (forall n : nat,
           encode n (JNull : json rt) = "null"
           /\ encode n (JBool true : json rt) = "true"
           /\ encode n (JBool false : json rt) = "false"
           /\ (forall z, encode n (JInt z : json rt) = Num.dec z)
           /\ (forall f, encode n (JFloat f : json rt) = float_json rt f)
           /\ (forall s, encode n (JStr s : json rt)
                         = Text.dquote ++ Dumps.escape s ++ Text.dquote)
           /\ encode n (JList [] : json rt) = "[]"
           /\ encode n (JObj [] : json rt) = "{}"
           /\ (forall (x : json rt) xs,
                  encode n (JList (x :: xs))
                  = "[" ++ Text.newline ++ Text.str_repeat " " (2 * S n)
                        ++ String.concat
                             ("," ++ Text.newline ++ Text.str_repeat " " (2 * S n))
                             (map (encode (S n)) (x :: xs))
                        ++ Text.newline ++ Text.str_repeat " " (2 * n) ++ "]")
           /\ (forall k (x : json rt) m,
                  encode n (JObj ((k, x) :: m))
                  = "{" ++ Text.newline ++ Text.str_repeat " " (2 * S n)
                        ++ String.concat
                             ("," ++ Text.newline ++ Text.str_repeat " " (2 * S n))
                             (map (fun kv => Text.dquote ++ Dumps.escape (fst kv)
                                               ++ Text.dquote ++ ": "
                                               ++ encode (S n) (snd kv))
                                  ((k, x) :: m))
                        ++ Text.newline ++ Text.str_repeat " " (2 * n) ++ "}"))
    /\ (Dumps.escape "" = ""
        /\ (forall c s, Dumps.escape (String c s) = Dumps.escape_byte c ++ Dumps.escape s)
        /\ (forall c, (32 <= nat_of_ascii c)%nat ->
                      nat_of_ascii c <> 34%nat -> nat_of_ascii c <> 92%nat ->
                      Dumps.escape_byte c = String c EmptyString)
        /\ Dumps.escape_byte (ascii_of_nat 34) = "\" ++ Text.dquote
        /\ Dumps.escape_byte (ascii_of_nat 92) = "\\"
        /\ Dumps.escape_byte (ascii_of_nat 8) = "\b"
        /\ Dumps.escape_byte (ascii_of_nat 9) = "\t"
        /\ Dumps.escape_byte (ascii_of_nat 10) = "\n"
        /\ Dumps.escape_byte (ascii_of_nat 12) = "\f"
        /\ Dumps.escape_byte (ascii_of_nat 13) = "\r"
        /\ (forall c, (nat_of_ascii c < 32)%nat ->
                      ~ In (nat_of_ascii c) [8; 9; 10; 12; 13]%nat ->
                      Dumps.escape_byte c
                      = "\u00" ++ Dumps.hex_digit (Nat.div (nat_of_ascii c) 16)
                               ++ Dumps.hex_digit (Nat.modulo (nat_of_ascii c) 16))).
Proof.
  intros rt e a data Hreply Hraw.
  split; [| split; [| split; [| split; [| split]]]].
  - now rewrite (search_flights_parsed e a _ Hreply), Hraw.
  - intros s Hs. cbn. unfold Dumps.encode_str. now rewrite (escape_non_ascii s Hs).
  - intros s t u Ht. now rewrite !escape_app, (escape_non_ascii t Ht).
  - reflexivity.
  - intros n. repeat (split; [reflexivity |]). split.
    + intros x xs. cbn [encode].
      rewrite separator_spaces, (newline_indent_spaces (S n)), (newline_indent_spaces n).
      reflexivity.
    + intros k x m. cbn [encode].
      rewrite separator_spaces, (newline_indent_spaces (S n)), (newline_indent_spaces n).
      rewrite (map_ext
                 (fun '(k0, x0) => Dumps.encode_str k0 ++ ": " ++ encode (S n) x0)
                 (fun kv : string * json rt =>
                    Text.dquote ++ Dumps.escape (fst kv) ++ Text.dquote ++ ": "
                      ++ encode (S n) (snd kv))).
      * reflexivity.
      * intros [k' x']. cbn [fst snd].
        unfold Dumps.encode_str. now rewrite !string_app_assoc.
  - split; [reflexivity |]. split; [reflexivity |].
    split; [exact escape_byte_kept |].
    repeat (split; [reflexivity |]).
    exact escape_byte_control.
Qed.

(** C9 holds of a reply whose summary reports a failure and that holds
    nested objects and lists, numbers, [true], [null] and an accented
    letter: the raw text is the dump below, two more spaces at each level,
    the letter unchanged; and a text with a quote, a backslash, a line feed
    and a control byte is escaped as shown. *)
Lemma C9_raw_json_is_the_dump_witness :
  let q := Text.dquote in
  let data : json Plain.runtime :=
    JObj [ ("GoodsSummary", JObj [("errCnt", JStr "FAIL")]);
           ("name", JStr Plain.e_acute);
           ("GoodsList",
            JObj [("Goods",
                   JList [ JObj [ ("SaleFare", JInt 500000);
                                  ("ok", JBool true);
                                  ("x", JNull) ];
                           JList [];
                           JObj [];
                           JInt (-7) ])]) ] in
  search_flights (Plain.answering (Ok (Plain.ok_reply data))) Plain.one_way_raw
  = Ok (String.concat Text.newline
          [ "{";
            "  " ++ q ++ "GoodsSummary" ++ q ++ ": {";
            "    " ++ q ++ "errCnt" ++ q ++ ": " ++ q ++ "FAIL" ++ q;
            "  },";
            "  " ++ q ++ "name" ++ q ++ ": " ++ q ++ Plain.e_acute ++ q ++ ",";
            "  " ++ q ++ "GoodsList" ++ q ++ ": {";
            "    " ++ q ++ "Goods" ++ q ++ ": [";
            "      {";
            "        " ++ q ++ "SaleFare" ++ q ++ ": 500000,";
            "        " ++ q ++ "ok" ++ q ++ ": true,";
            "        " ++ q ++ "x" ++ q ++ ": null";
            "      },";
            "      [],";
            "      {},";
            "      -7";
            "    ]";
            "  }";
            "}" ])
  /\ json_dumps
       (JStr ("a" ++ q ++ "b\c" ++ Text.newline ++ Plain.e_acute
                  ++ String (ascii_of_nat 1) EmptyString)
        : json Plain.runtime)
     = q ++ "a\" ++ q ++ "b\\c\n" ++ Plain.e_acute ++ "\u0001" ++ q.
Proof.
  cbv zeta. split.
  - refine (eq_trans
              (proj1 (C9_raw_json_is_the_dump Plain.runtime _ _ _ _ _)) _).
    + eexists. split; [reflexivity |]. split; [| reflexivity]. cbn. lia.
    + reflexivity.
    + vm_compute. reflexivity.
  - vm_compute. reflexivity.
Defined.

(** ** The listing *)

Section Listing.

Context {rt : PyRuntime}.

Lemma bind_ok {A B : Type} (r : result A) (k : A -> result B) (b : B) :
  bind r k = Ok b -> exists x, r = Ok x /\ k x = Ok b.
Proof. destruct r as [x | ex]; cbn; [eauto | discriminate]. Qed.


(** The loop renders the offers one by one, in order, each under its own
    index. *)
Lemma format_offers_blocks (items : list (json rt)) :
  forall i : nat,
    (forall k item, nth_error items k = Some item ->
                    exists b, format_offer (i + k) item = Ok b) ->
    exists blocks,
      format_offers i items = Ok (ruled blocks)
      /\ List.length blocks = List.length items
      /\ (forall k b, nth_error blocks k = Some b ->
                      exists item, nth_error items k = Some item
                                   /\ format_offer (i + k) item = Ok b).
Proof.
  induction items as [| item rest IH]; intros i Hall.
  - exists []. repeat split. intros [| k] b H; discriminate H.
  - destruct (Hall 0%nat item eq_refl) as [b Hb].
    rewrite Nat.add_0_r in Hb.
    destruct (IH (S i)) as (blocks & Hrest & Hlen & Hnth).
    { intros k it Hk. rewrite Nat.add_succ_comm. now apply (Hall (S k)). }
    exists (b :: blocks). split; [| split].
    + cbn [format_offers]. rewrite Hb. cbn [bind]. rewrite Hrest. reflexivity.
    + cbn. now rewrite Hlen.
    + intros [| k] b' H.
      * injection H as <-. exists item. rewrite Nat.add_0_r. now split.
      * cbn in H. destruct (Hnth k b' H) as (it & Hit & Hfmt).
        exists it. split; [exact Hit |]. now rewrite <- Nat.add_succ_comm.
Qed.

Lemma nth_error_firstn_some {A : Type} (n : nat) (l : list A) (k : nat) (x : A) :
  nth_error (firstn n l) k = Some x -> (k < n)%nat /\ nth_error l k = Some x.
Proof.
  revert l k. induction n as [| n IH]; intros l k H.
  - cbn in H. destruct k; discriminate H.
  - destruct l as [| y l]; [destruct k; discriminate H |].
    destruct k as [| k]; cbn in H.
    + split; [lia | exact H].
    + destruct (IH l k H) as [Hlt Hx]. split; [lia | exact Hx].
Qed.

Lemma remainder_line_more (n : nat) :
  (10 < n)%nat ->
  remainder_line n = [ "... and " ++ Num.dec (Z.of_nat (n - 10)) ++ " more results." ].
Proof. intros H. unfold remainder_line. apply Nat.ltb_lt in H. now rewrite H. Qed.

Lemma remainder_line_none (n : nat) : (n <= 10)%nat -> remainder_line n = [].
Proof.
  intros H. unfold remainder_line.
  destruct (Nat.ltb_spec 10 n) as [Hlt | _]; [lia | reflexivity].
Qed.

End Listing.

(** C3. A parsed reply (summary asked for) reports success and lists offers,
    each of the first ten of which renders.  Then the text is the lines
    [Found n flight offers.] and a rule, the blocks of the offers with their
    rules, and the closing line, joined by line feeds, where: there are
    as many blocks as offers, at most ten; block [k] renders offer [k] of the
    list under number [k + 1]; the closing line is there when and only when
    the list has more than ten offers, and names how many remain.  With 15
    offers there are 10 blocks and the closing line is
    [... and 5 more results.] *)
Theorem C3_first_ten_offers_in_order :
  forall (rt : PyRuntime) (e : env rt) (a : args)
         (members summary goods_list : list (string * json rt)) (goods : list (json rt)),
    parsed_reply e a (JObj members) ->
    raw_json a = false ->
    lookup "GoodsSummary" members = Some (JObj summary) ->
    lookup "errCnt" summary = Some (JStr "OK") ->
    lookup "GoodsList" members = Some (JObj goods_list) ->
    lookup "Goods" goods_list = Some (JList goods) ->
    goods <> [] ->
    (forall k item, (k < 10)%nat -> nth_error goods k = Some item ->
                    exists b, format_offer k item = Ok b) ->
    exists blocks,
      search_flights e a
      = Ok (String.concat Text.newline
              ([ "Found " ++ Num.dec (Z.of_nat (List.length goods)) ++ " flight offers.";
                 Text.str_repeat "-" 50 ]
                 ++ ruled blocks ++ remainder_line (List.length goods)))
      /\ List.length blocks = Nat.min 10 (List.length goods)
      /\ (forall k b, nth_error blocks k = Some b ->
                      exists item, nth_error goods k = Some item
                                   /\ format_offer k item = Ok b)
      /\ ((10 < List.length goods)%nat ->
          remainder_line (List.length goods)
          = [ "... and " ++ Num.dec (Z.of_nat (List.length goods - 10)) ++ " more results." ])
      /\ ((List.length goods <= 10)%nat -> remainder_line (List.length goods) = [])
      /\ (List.length goods = 15%nat ->
          List.length blocks = 10%nat
          /\ remainder_line (List.length goods) = [ "... and 5 more results." ]).
Proof.
  intros rt e a members summary goods_list goods
         Hreply Hraw Hs Hcnt Hlist Hgoods Hne Hrender.
  destruct (format_offers_blocks (firstn 10 goods) 0) as (blocks & Hfmt & Hlen & Hnth).
  { intros k item Hk. apply nth_error_firstn_some in Hk. destruct Hk as [Hlt Hk].
    now apply Hrender. }
  exists blocks.
  rewrite length_firstn in Hlen.
  split; [| split; [exact Hlen | split; [| split; [| split]]]].
  - rewrite (search_flights_parsed e a _ Hreply), Hraw.
    rewrite (summarize_ok members summary Hs Hcnt).
    rewrite py_get_members. unfold member_or at 1. rewrite Hlist. cbn [bind].
    rewrite py_get_members. unfold member_or at 1. rewrite Hgoods. cbn [bind].
    destruct goods as [| g goods']; [contradiction |].
    cbn [py_truthy negb py_len py_slice_items bind].
    rewrite Hfmt. reflexivity.
  - intros k b Hb. destruct (Hnth k b Hb) as (item & Hitem & Hf).
    apply nth_error_firstn_some in Hitem. exists item. now split.
  - apply remainder_line_more.
  - apply remainder_line_none.
  - intros H15. rewrite Hlen, H15. split; reflexivity.
Qed.

(** C3 holds of a reply that lists fifteen numbered offers: ten blocks, then
    the line that counts five more. *)
Lemma C3_first_ten_offers_in_order_witness :
  exists blocks,
    search_flights
      (Plain.answering (Ok (Plain.ok_reply (Plain.listing Plain.fifteen_offers))))
      Plain.one_way
    = Ok (String.concat Text.newline
            ([ "Found 15 flight offers."; Text.str_repeat "-" 50 ]
               ++ ruled blocks ++ [ "... and 5 more results." ]))
    /\ List.length blocks = 10%nat
    /\ nth_error blocks 9
       = Some (String.concat Text.newline
                 [ "[10] Airline 10"; "   Route:  / "; "   Price: 10,000 KRW";
                   "   Baggage: N/A"; "   Fare Type:  ()" ]).
Proof.
  destruct (C3_first_ten_offers_in_order Plain.runtime
              (Plain.answering (Ok (Plain.ok_reply (Plain.listing Plain.fifteen_offers))))
              Plain.one_way
              [ Plain.summary_ok;
                ("GoodsList", JObj [("Goods", JList Plain.fifteen_offers)]) ]
              [("errCnt", JStr "OK")]
              [("Goods", JList Plain.fifteen_offers)]
              Plain.fifteen_offers)
    as (blocks & Hout & Hlen & Hnth & _ & _ & H15).
  - eexists. split; [reflexivity |]. split; [| reflexivity]. cbn. lia.
  - reflexivity.
  - reflexivity.
  - reflexivity.
  - reflexivity.
  - reflexivity.
  - discriminate.
  - intros k item Hk Hitem.
    do 10 (destruct k as [| k];
           [injection Hitem as <-; eexists; vm_compute; reflexivity |]).
    lia.
  - exists blocks. destruct (H15 eq_refl) as [H10 Hrem].
    split; [| split; [exact H10 |]].
    + rewrite Hout. cbn [List.length Plain.fifteen_offers] in Hrem. now rewrite Hrem.
    + destruct (nth_error blocks 9) as [b |] eqn:Hb.
      * destruct (Hnth 9%nat b Hb) as (item & Hitem & Hfmt).
        injection Hitem as <-. vm_compute in Hfmt. now injection Hfmt as <-.
      * apply nth_error_None in Hb. lia.
Defined.

(** ** The price of an offer *)

Section Price.

Context {rt : PyRuntime}.


Lemma py_add_int_values (a b : json rt) (x y : Z) :
  int_value a = Some x -> int_value b = Some y -> py_add a b = Ok (JInt (x + y)).
Proof.
  destruct a, b; cbn; try discriminate; intros Hx Hy;
    injection Hx as <-; injection Hy as <-; reflexivity.
Qed.




End Price.



(** * Further properties of the query *)

Lemma distinct_NoDup (l : list string) : distinct l = true -> NoDup l.
Proof.
  induction l as [| x l IH]; [constructor |].
  cbn [distinct]. intros H. apply andb_prop in H. destruct H as [Hx Hl].
  constructor; [| now apply IH].
  intros Hin. apply negb_true_iff in Hx.
  assert (existsb (String.eqb x) l = true) as Hex.
  { apply existsb_exists. exists x. split; [exact Hin | apply String.eqb_refl]. }
  congruence.
Qed.

(** In a dictionary whose keys are all different, [param_of] finds exactly
    the entries. *)
Lemma param_of_In (q : list (string * param)) (k : string) (v : param) :
  NoDup (map fst q) -> (In (k, v) q <-> param_of k q = Some v).
Proof.
  induction q as [| [k' v'] q IH]; intros Hnd.
  - cbn. split; [contradiction | discriminate].
  - cbn [map fst] in Hnd. inversion Hnd as [| ? ? Hnotin Hnd']; subst.
    cbn [param_of In]. destruct (String.eqb_spec k' k) as [E | NE].
    + subst k'. split.
      * intros [H | H]; [now injection H as -> |].
        exfalso. apply Hnotin. apply (in_map fst) in H. exact H.
      * intros H. injection H as ->. now left.
    + rewrite <- (IH Hnd'). split.
      * intros [H | H]; [injection H as E _; contradiction | exact H].
      * intros H. now right.
Qed.

(** The query always has the same forty keys, in the same order, whatever
    the arguments and the clock; no key is written twice, so every entry of
    the dictionary literal is the one that is sent. *)
Theorem query_has_forty_distinct_keys :
  forall (timestamp timestamp' : Z) (a a' : args),
    map fst (params timestamp a) = map fst (params timestamp' a')
    /\ List.length (params timestamp a) = 40%nat
    /\ NoDup (map fst (params timestamp a))
    /\ (forall k v, In (k, v) (params timestamp a)
                    <-> param_of k (params timestamp a) = Some v).
Proof.
  intros timestamp timestamp' a a'.
  assert (Hnd : NoDup (map fst (params timestamp a))).
  { apply distinct_NoDup. vm_compute. reflexivity. }
  split; [reflexivity |]. split; [reflexivity |]. split; [exact Hnd |].
  intros k v. now apply param_of_In.
Qed.

Ltac param_cases k H :=
  unfold params; cbn [param_of];
  repeat match goal with
         | |- context [String.eqb ?x k] =>
             destruct (String.eqb_spec x k);
             [ first [ reflexivity | exfalso; apply H; subst k; cbn; tauto ] | ]
         end;
  reflexivity.

(** Outside the twelve keys fed by the arguments and the clock, the query is
    constant: the same value for every call, and no value for a key it does
    not have. *)
Theorem other_query_fields_are_constant :
  forall (timestamp timestamp' : Z) (a a' : args) (k : string),
    ~ In k input_keys ->
    param_of k (params timestamp a) = param_of k (params timestamp' a').
Proof.
  intros timestamp timestamp' a a' k H. param_cases k H.
Qed.

(** The fixed part holds of the key [splitNo]. *)
Lemma other_query_fields_are_constant_witness :
  param_of "splitNo" (params 0 Plain.one_way)
  = param_of "splitNo" (params 1767225600000 Plain.one_way_raw).
Proof.
  apply other_query_fields_are_constant.
  cbn. intros H. repeat (destruct H as [H | H]; [discriminate H |]). exact H.
Defined.

Lemma dec_inj (z z' : Z) : Num.dec z = Num.dec z' -> z = z'.
Proof.
  unfold Num.dec. intros H.
  assert (Hnn : forall n, Z.to_int n <> Decimal.Pos Decimal.Nil
                          /\ Z.to_int n <> Decimal.Neg Decimal.Nil).
  { intros [| q | q]; cbn; split; try discriminate;
      intros E; injection E as E; now apply (DecimalPos.Unsigned.to_uint_nonnil q). }
  apply DecimalZ.to_int_inj.
  assert (Some (Z.to_int z) = Some (Z.to_int z')) as E.
  { rewrite <- (NilZero.isi (Z.to_int z)), <- (NilZero.isi (Z.to_int z')) by apply Hnn.
    now rewrite H. }
  now injection E.
Qed.

(** The clock reaches the query through the key [_] alone, as the decimal
    text of [int(time.time() * 1000)]: every other entry is the same whatever
    that count is, and two calls with the same arguments send the same query
    exactly when their counts of whole milliseconds are equal.  Two instants
    within one millisecond are not told apart. *)
Theorem clock_only_marks_the_cache_buster :
  forall (timestamp timestamp' : Z) (a : args),
    (forall k, k <> "_" ->
               param_of k (params timestamp a) = param_of k (params timestamp' a))
    /\ (params timestamp a = params timestamp' a <-> timestamp = timestamp')
    /\ param_of "_" (params timestamp a) = Some (PStr (Num.dec timestamp)).
Proof.
  intros timestamp timestamp' a. split; [| split; [| reflexivity]].
  - intros k H. unfold params; cbn [param_of].
    repeat match goal with
           | |- context [String.eqb ?x k] =>
               destruct (String.eqb_spec x k);
               [ first [ reflexivity | exfalso; apply H; subst k; reflexivity ] | ]
           end.
    reflexivity.
  - split.
    + intros H.
      assert (param_of "_" (params timestamp a) = param_of "_" (params timestamp' a)) as E
          by now rewrite H.
      cbn in E. injection E as E. now apply dec_inj.
    + now intros ->.
Qed.

Lemma rstrip_app_byte (c : ascii) (s : string) :
  Text.rstrip c (s ++ String c EmptyString) = Text.rstrip c s.
Proof.
  induction s as [| d s IH].
  - cbn. now rewrite Ascii.eqb_refl.
  - cbn [append Text.rstrip]. now rewrite IH.
Qed.

Lemma rstrip_last_byte (c : ascii) (s : string) :
  last_byte (Text.rstrip c s) <> Some c.
Proof.
  induction s as [| d s IH]; [discriminate |].
  cbn [Text.rstrip]. destruct (Text.rstrip c s) as [| e r].
  - destruct (Ascii.eqb_spec d c) as [E | NE]; cbn; [discriminate | congruence].
  - exact IH.
Qed.

Lemma rstrip_tail (c : ascii) (s : string) :
  exists n, s = Text.rstrip c s ++ Text.str_repeat (String c EmptyString) n.
Proof.
  induction s as [| d s [n IH]].
  - now exists 0%nat.
  - cbn [Text.rstrip]. destruct (Text.rstrip c s) as [| e r].
    + destruct (Ascii.eqb_spec d c) as [E | NE].
      * subst d. exists (S n). cbn in *. now rewrite <- IH.
      * exists n. cbn in *. now rewrite <- IH.
    + exists n. cbn in *. now rewrite <- IH.
Qed.

(** Slashes at the end of the base URL do not matter: the URL is the base
    without them, followed by the endpoint path, so no doubled slash arises
    there and a base with one more slash gives the same URL. *)
Theorem url_ignores_trailing_slashes :
  forall base : string,
    url (base ++ "/") = url base
    /\ (exists stem n,
           base = stem ++ Text.str_repeat "/" n
           /\ last_byte stem <> Some "/"%char
           /\ url base = stem ++ endpoint).
Proof.
  intros base. split.
  - unfold url. now rewrite rstrip_app_byte.
  - destruct (rstrip_tail "/" base) as [n Hn].
    exists (Text.rstrip "/" base), n.
    split; [exact Hn |]. split; [apply rstrip_last_byte | reflexivity].
Qed.

(** * Further properties of the reply *)

Section Failures.

Context {rt : PyRuntime}.

Lemma raises_plain_ok {A : Type} (x : A) : raises_plain (Ok x).
Proof. intros ex H. discriminate H. Qed.

Lemma raises_plain_bind {A B : Type} (r : result A) (k : A -> result B) :
  raises_plain r -> (forall x, raises_plain (k x)) -> raises_plain (bind r k).
Proof.
  intros Hr Hk. destruct r as [x | e]; cbn.
  - apply Hk.
  - intros ex H. injection H as <-. now apply Hr.
Qed.

Lemma raises_plain_py_get (v : json rt) (k : string) (d : json rt) :
  raises_plain (py_get v k d).
Proof. intros ex. destruct v; cbn; intros H; now inversion H. Qed.

Lemma raises_plain_py_add (a b : json rt) : raises_plain (py_add a b).
Proof.
  intros ex. destruct a, b; cbn; unfold add_int_float;
    try (destruct (float_of_int rt _)); intros H; now inversion H.
Qed.

Lemma raises_plain_py_format_comma (v : json rt) : raises_plain (py_format_comma v).
Proof. intros ex. destruct v; cbn; intros H; now inversion H. Qed.

Lemma raises_plain_py_first (v : json rt) : raises_plain (py_first v).
Proof.
  intros ex. destruct v as [| | | | s | l |]; cbn;
    try (intros H; now inversion H).
  - destruct (Text.str_chars s); intros H; now inversion H.
  - destruct l; intros H; now inversion H.
Qed.

Lemma raises_plain_py_len (v : json rt) : raises_plain (py_len v).
Proof. intros ex. destruct v; cbn; intros H; now inversion H. Qed.

Lemma raises_plain_py_slice_items (n : nat) (v : json rt) :
  raises_plain (py_slice_items n v).
Proof. intros ex. destruct v; cbn; intros H; now inversion H. Qed.

Create HintDb plain.

Hint Resolve raises_plain_ok raises_plain_py_get raises_plain_py_add
  raises_plain_py_format_comma raises_plain_py_first raises_plain_py_len
  raises_plain_py_slice_items : plain.

Ltac plain_steps :=
  repeat first
    [ apply raises_plain_bind; [ | intros ? ]
    | solve [ auto with plain ] ].

Lemma raises_plain_cheapest_event (event_fares total : json rt) :
  raises_plain (cheapest_event event_fares total).
Proof.
  unfold cheapest_event. destruct (py_truthy event_fares); plain_steps.
Qed.

Lemma raises_plain_total_base_fare (item : json rt) :
  raises_plain (total_base_fare item).
Proof. unfold total_base_fare. plain_steps. Qed.

Lemma raises_plain_format_offer (i : nat) (item : json rt) :
  raises_plain (format_offer i item).
Proof.
  unfold format_offer.
  repeat first
    [ apply raises_plain_bind; [ | intros ? ]
    | apply raises_plain_cheapest_event
    | apply raises_plain_total_base_fare
    | solve [ auto with plain ] ].
Qed.

Lemma raises_plain_format_offers (items : list (json rt)) :
  forall i, raises_plain (format_offers i items).
Proof.
  induction items as [| item rest IH]; intros i; cbn [format_offers].
  - apply raises_plain_ok.
  - apply raises_plain_bind; [apply raises_plain_format_offer | intros b].
    apply raises_plain_bind; [apply IH | intros more]. apply raises_plain_ok.
Qed.

(** Nothing raised while a parsed reply is summarized is an
    [httpx.HTTPError]. *)
Lemma raises_plain_summarize (data : json rt) : raises_plain (summarize data).
Proof.
  unfold summarize.
  apply raises_plain_bind; [auto with plain | intros summary_info].
  apply raises_plain_bind; [auto with plain | intros err_cnt].
  destruct (py_ne_str err_cnt "OK").
  - plain_steps.
  - apply raises_plain_bind; [auto with plain | intros goods_list].
    apply raises_plain_bind; [auto with plain | intros goods].
    destruct (negb (py_truthy goods)); [apply raises_plain_ok |].
    apply raises_plain_bind; [auto with plain | intros n].
    apply raises_plain_bind; [auto with plain | intros top].
    apply raises_plain_bind; [apply raises_plain_format_offers | intros blocks].
    apply raises_plain_ok.
Qed.

(** The loop stops at the first offer that does not render, with its
    exception. *)
Lemma format_offers_raise (items : list (json rt)) :
  forall (i k : nat) (item : json rt) (ex : exn),
    nth_error items k = Some item ->
    format_offer (i + k) item = Raise ex ->
    (forall j it, (j < k)%nat -> nth_error items j = Some it ->
                  exists b, format_offer (i + j) it = Ok b) ->
    format_offers i items = Raise ex.
Proof.
  induction items as [| x rest IH]; intros i k item ex Hk Hex Hbefore.
  - destruct k; discriminate Hk.
  - destruct k as [| k].
    + injection Hk as ->. rewrite Nat.add_0_r in Hex.
      cbn [format_offers]. now rewrite Hex.
    + destruct (Hbefore 0%nat x) as [b Hb]; [lia | reflexivity |].
      rewrite Nat.add_0_r in Hb.
      cbn [format_offers]. rewrite Hb. cbn [bind].
      rewrite (IH (S i) k item ex).
      * reflexivity.
      * exact Hk.
      * now rewrite Nat.add_succ_comm.
      * intros j it Hj Hit. rewrite Nat.add_succ_comm.
        apply (Hbefore (S j)); [lia | exact Hit].
Qed.

Lemma nth_error_firstn_lt {A : Type} (n : nat) (l : list A) (k : nat) :
  (k < n)%nat -> nth_error (firstn n l) k = nth_error l k.
Proof.
  revert l k. induction n as [| n IH]; intros l k H; [lia |].
  destruct l as [| y l]; [now destruct k |].
  destruct k as [| k]; [reflexivity |]. cbn. apply IH. lia.
Qed.

(** The summary of a reply that reports success and holds a list of
    offers. *)
Lemma summarize_goods (members summary goods_list : list (string * json rt))
      (goods : list (json rt)) :
  lookup "GoodsSummary" members = Some (JObj summary) ->
  lookup "errCnt" summary = Some (JStr "OK") ->
  lookup "GoodsList" members = Some (JObj goods_list) ->
  lookup "Goods" goods_list = Some (JList goods) ->
  summarize (JObj members)
  = match goods with
    | [] => Ok "No flights found for the given criteria."
    | _ =>
        blocks <- format_offers 0 (firstn 10 goods) ;;
        Ok (String.concat Text.newline
              ([ "Found " ++ Num.dec (Z.of_nat (List.length goods)) ++ " flight offers.";
                 Text.str_repeat "-" 50 ]
                 ++ blocks ++ remainder_line (List.length goods)))
    end.
Proof.
  intros Hs Hcnt Hlist Hgoods.
  rewrite (summarize_ok members summary Hs Hcnt).
  rewrite py_get_members. unfold member_or at 1. rewrite Hlist. cbn [bind].
  rewrite py_get_members. unfold member_or at 1. rewrite Hgoods. cbn [bind].
  now destruct goods.
Qed.

End Failures.

(** One offer among the first ten that does not render costs the whole
    listing: the text is [An unexpected error occurred: ] followed by the
    message of the first such offer, and no block of the offers before it is
    returned. *)
Theorem first_bad_offer_aborts_the_listing :
  forall (rt : PyRuntime) (e : env rt) (a : args)
         (members summary goods_list : list (string * json rt)) (goods : list (json rt))
         (k : nat) (item : json rt) (ex : exn),
    parsed_reply e a (JObj members) ->
    raw_json a = false ->
    lookup "GoodsSummary" members = Some (JObj summary) ->
    lookup "errCnt" summary = Some (JStr "OK") ->
    lookup "GoodsList" members = Some (JObj goods_list) ->
    lookup "Goods" goods_list = Some (JList goods) ->
    (k < 10)%nat ->
    nth_error goods k = Some item ->
    format_offer k item = Raise ex ->
    (forall j it, (j < k)%nat -> nth_error goods j = Some it ->
                  exists b, format_offer j it = Ok b) ->
    search_flights e a = Ok ("An unexpected error occurred: " ++ exc_str ex).
Proof.
  intros rt e a members summary goods_list goods k item ex
         Hreply Hraw Hs Hcnt Hlist Hgoods Hk Hitem Hex Hbefore.
  rewrite (search_flights_parsed e a _ Hreply), Hraw.
  rewrite (summarize_ok members summary Hs Hcnt).
  rewrite py_get_members. unfold member_or at 1. rewrite Hlist. cbn [bind].
  rewrite py_get_members. unfold member_or at 1. rewrite Hgoods. cbn [bind].
  destruct goods as [| g goods']; [destruct k; discriminate Hitem |].
  cbn [py_truthy negb py_len py_slice_items bind].
  rewrite (format_offers_raise (firstn 10 (g :: goods')) 0 k item ex).
  - cbn [bind try_except]. unfold on_error.
    now rewrite (raises_plain_format_offer k item ex Hex).
  - now rewrite nth_error_firstn_lt.
  - exact Hex.
  - intros j it Hj Hit. rewrite nth_error_firstn_lt in Hit by lia.
    now apply Hbefore.
Qed.

(** A listing whose second offer has a fare given as text returns the error
    text, not the block of the first offer. *)
Lemma first_bad_offer_aborts_the_listing_witness :
  search_flights
    (Plain.answering
       (Ok (Plain.ok_reply (Plain.listing [Plain.fare_offer; Sample.broken_offer]))))
    Plain.one_way
  = Ok ("An unexpected error occurred: "
          ++ "can only concatenate str (not " ++ Text.dquote ++ "int" ++ Text.dquote
          ++ ") to str").
Proof.
  refine (first_bad_offer_aborts_the_listing Plain.runtime _ _
            [ Plain.summary_ok;
              ("GoodsList", JObj [("Goods", JList [Plain.fare_offer; Sample.broken_offer])]) ]
            [("errCnt", JStr "OK")]
            [("Goods", JList [Plain.fare_offer; Sample.broken_offer])]
            [Plain.fare_offer; Sample.broken_offer]
            1 Sample.broken_offer
            (Exn TypeError _)
            _ _ _ _ _ _ _ _ _ _).
  - eexists. split; [reflexivity |]. split; [| reflexivity]. cbn. lia.
  - reflexivity.
  - reflexivity.
  - reflexivity.
  - reflexivity.
  - reflexivity.
  - lia.
  - reflexivity.
  - reflexivity.
  - intros j it Hj Hit. destruct j as [| j]; [| lia].
    injection Hit as <-. eexists. reflexivity.
Defined.

(** Offers after the tenth are never read: two listings that agree on their
    first ten offers and on their length give the same text, whatever the
    later offers hold. *)
Theorem offers_after_the_tenth_are_not_read :
  forall (rt : PyRuntime)
         (members summary goods_list members' summary' goods_list' : list (string * json rt))
         (goods goods' : list (json rt)),
    lookup "GoodsSummary" members = Some (JObj summary) ->
    lookup "errCnt" summary = Some (JStr "OK") ->
    lookup "GoodsList" members = Some (JObj goods_list) ->
    lookup "Goods" goods_list = Some (JList goods) ->
    lookup "GoodsSummary" members' = Some (JObj summary') ->
    lookup "errCnt" summary' = Some (JStr "OK") ->
    lookup "GoodsList" members' = Some (JObj goods_list') ->
    lookup "Goods" goods_list' = Some (JList goods') ->
    firstn 10 goods = firstn 10 goods' ->
    List.length goods = List.length goods' ->
    summarize (JObj members) = summarize (JObj members').
Proof.
  intros rt members summary goods_list members' summary' goods_list' goods goods'
         Hs Hcnt Hlist Hgoods Hs' Hcnt' Hlist' Hgoods' Hten Hlen.
  rewrite (summarize_goods members summary goods_list goods Hs Hcnt Hlist Hgoods).
  rewrite (summarize_goods members' summary' goods_list' goods' Hs' Hcnt' Hlist' Hgoods').
  destruct goods as [| g goods1]; destruct goods' as [| g' goods1'];
    try discriminate Hlen; [reflexivity |].
  now rewrite Hten, Hlen.
Qed.

(** Eleven offers render the same whether the eleventh is an offer or
    [null]. *)
Lemma offers_after_the_tenth_are_not_read_witness :
  summarize (Plain.listing Sample.eleven) = summarize (Plain.listing Sample.eleven_null_last)
  /\ exists s, summarize (Plain.listing Sample.eleven_null_last) = Ok s.
Proof.
  split.
  - apply (offers_after_the_tenth_are_not_read Plain.runtime
             _ [("errCnt", JStr "OK")] [("Goods", JList Sample.eleven)]
             _ [("errCnt", JStr "OK")] [("Goods", JList Sample.eleven_null_last)]
             Sample.eleven Sample.eleven_null_last);
      reflexivity.
  - eexists. vm_compute. reflexivity.
Defined.

(** ** The block of an offer *)

Section Offer.

Context {rt : PyRuntime}.

Lemma py_format_comma_int_value (v : json rt) (z : Z) :
  int_value v = Some z -> py_format_comma v = Ok (Num.format_comma z).
Proof. destruct v; cbn; try discriminate; intros H; now injection H as <-. Qed.

Lemma total_of_int_values (members : list (string * json rt)) (x y z : Z) :
  int_value (member_or "SaleFare" (JInt 0) members) = Some x ->
  int_value (member_or "Tax" (JInt 0) members) = Some y ->
  int_value (member_or "Qcharge" (JInt 0) members) = Some z ->
  total_base_fare (JObj members) = Ok (JInt (x + y + z)).
Proof.
  intros Hx Hy Hz. unfold total_base_fare. rewrite !py_get_members. cbn [bind].
  rewrite (py_add_int_values _ _ x y Hx Hy). cbn [bind].
  now rewrite (py_add_int_values (JInt (x + y)) _ (x + y) z eq_refl Hz).
Qed.

End Offer.

(** The card discount of an offer is read from the first entry of its
    [EventFare] list and from no other: the price line carries the total of
    that entry with thousands separators, or the offer's own total when the
    entry has no [TotalSaleFare], then the entry's [FareTypeDesc], which
    reads [None] when the entry has none. *)
Theorem card_discount_is_the_first_entry :
  forall (rt : PyRuntime) (i : nat)
         (members fare_list entry : list (string * json rt)) (others : list (json rt))
         (x y z t : Z),
    int_value (member_or "SaleFare" (JInt 0) members) = Some x ->
    int_value (member_or "Tax" (JInt 0) members) = Some y ->
    int_value (member_or "Qcharge" (JInt 0) members) = Some z ->
    lookup "EventFareList" members = Some (JObj fare_list) ->
    lookup "EventFare" fare_list = Some (JList (JObj entry :: others)) ->
    int_value (member_or "TotalSaleFare" (JInt (x + y + z)) entry) = Some t ->
    format_offer i (JObj members)
    = Ok (String.concat Text.newline
            [ "[" ++ Num.dec (Z.of_nat (i + 1)) ++ "] "
                  ++ py_str (member_or "AirLineKor" (JStr "Unknown Airline") members);
              "   Route: " ++ py_str (member_or "StartRoutine" (JStr "") members)
                           ++ " / " ++ py_str (member_or "ReturnRoutine" (JStr "") members);
              "   Price: " ++ Num.format_comma (x + y + z) ++ " KRW"
                           ++ " (Card Discount: " ++ Num.format_comma t ++ " KRW - "
                           ++ py_str (member_or "FareTypeDesc" JNull entry) ++ ")";
              "   Baggage: " ++ py_str (member_or "AdultBagInfo" (JStr "N/A") members);
              "   Fare Type: " ++ py_str (member_or "FareTypeDesc" (JStr "") members)
                               ++ " (" ++ py_str (member_or "FareFix" (JStr "") members)
                               ++ ")" ])
    /\ (lookup "TotalSaleFare" entry = None -> t = x + y + z)
    /\ (lookup "FareTypeDesc" entry = None
        -> py_str (member_or "FareTypeDesc" JNull entry) = "None").
Proof.
  intros rt i members fare_list entry others x y z t Hx Hy Hz Hlist Hfares Ht.
  split; [| split].
  - unfold format_offer.
    rewrite (total_of_int_values members x y z Hx Hy Hz), !py_get_members.
    cbn [bind]. unfold member_or at 1. rewrite Hlist.
    rewrite py_get_members. unfold member_or at 1. rewrite Hfares. cbn [bind].
    unfold cheapest_event. cbn [py_truthy py_first bind].
    rewrite !py_get_members. cbn [bind].
    rewrite (py_format_comma_int_value _ t Ht). cbn [bind py_format_comma].
    reflexivity.
  - intros Hnone. unfold member_or in Ht. rewrite Hnone in Ht. cbn in Ht. congruence.
  - intros Hnone. unfold member_or. now rewrite Hnone.
Qed.

(** The offer with two card discounts shows the first one. *)
Lemma card_discount_is_the_first_entry_witness :
  format_offer 0 Sample.discounted_offer
  = Ok (String.concat Text.newline
          [ "[1] Air Test"; "   Route:  / ";
            "   Price: 560,000 KRW (Card Discount: 540,000 KRW - Card A)";
            "   Baggage: N/A"; "   Fare Type:  ()" ]).
Proof.
  refine (proj1 (card_discount_is_the_first_entry Plain.runtime 0 _
                   [("EventFare",
                     JList [ JObj [ ("TotalSaleFare", JInt 540000);
                                    ("FareTypeDesc", JStr "Card A") ];
                             JObj [ ("TotalSaleFare", JInt 1);
                                    ("FareTypeDesc", JStr "Card B") ] ])]
                   [ ("TotalSaleFare", JInt 540000); ("FareTypeDesc", JStr "Card A") ]
                   [ JObj [ ("TotalSaleFare", JInt 1); ("FareTypeDesc", JStr "Card B") ] ]
                   500000 50000 10000 540000 _ _ _ _ _ _));
    reflexivity.
Defined.

(** An offer is rendered from ten of its fields and from nothing else: two
    offers that agree on those fields give the same block, or fail alike,
    whatever other fields they carry. *)
Theorem offer_block_reads_ten_fields :
  forall (rt : PyRuntime) (i : nat) (members members' : list (string * json rt)),
    (forall k, In k offer_keys -> lookup k members = lookup k members') ->
    format_offer i (JObj members) = format_offer i (JObj members').
Proof.
  intros rt i members members' H.
  assert (E : forall k d, In k offer_keys -> member_or k d members = member_or k d members').
  { intros k d Hk. unfold member_or. now rewrite (H k Hk). }
  unfold format_offer, total_base_fare. rewrite !py_get_members.
  rewrite !E by (cbn; tauto). reflexivity.
Qed.

(** The fare offer renders the same with three unknown fields added. *)
Lemma offer_block_reads_ten_fields_witness :
  format_offer 3 Sample.fare_offer_with_more = format_offer 3 Plain.fare_offer
  /\ exists block, format_offer 3 Plain.fare_offer = Ok block.
Proof.
  split.
  - apply offer_block_reads_ten_fields.
    intros k Hk. cbn in Hk.
    repeat (destruct Hk as [<- | Hk]; [reflexivity |]). contradiction.
  - eexists. vm_compute. reflexivity.
Defined.

(** ** Characters of a text *)

Lemma string_app_nil_r (s : string) : s ++ "" = s.
Proof. induction s as [| c s IH]; [reflexivity | cbn; now rewrite IH]. Qed.

Lemma concat_empty_cons (x : string) (l : list string) :
  String.concat "" (x :: l) = x ++ String.concat "" l.
Proof. destruct l; cbn; [now rewrite string_app_nil_r | reflexivity]. Qed.

Lemma concat_empty_app (l l' : list string) :
  String.concat "" (l ++ l') = String.concat "" l ++ String.concat "" l'.
Proof.
  induction l as [| x l IH]; [reflexivity |].
  cbn [app]. now rewrite !concat_empty_cons, IH, string_app_assoc.
Qed.

Lemma prefix_app (p s : string) : String.prefix p (p ++ s) = true.
Proof.
  induction p as [| c p IH]; [apply prefix_empty |].
  cbn. destruct (ascii_dec c c) as [_ | NE]; [exact IH | contradiction].
Qed.

(** The pieces [chars_acc] cuts a text into make up the text. *)
Lemma chars_acc_join (s : string) :
  fst (Text.chars_acc s) ++ String.concat "" (snd (Text.chars_acc s)) = s.
Proof.
  induction s as [| c s IH]; [reflexivity |].
  cbn [Text.chars_acc]. destruct (Text.chars_acc s) as [k l]. cbn [fst snd] in IH.
  destruct (Text.is_lead_byte c); cbn [fst snd].
  - rewrite concat_empty_cons. cbn. now rewrite IH.
  - cbn. now rewrite IH.
Qed.

Lemma chars_acc_whole (s : string) :
  starts_whole s = true -> fst (Text.chars_acc s) = "".
Proof.
  destruct s as [| c s]; [reflexivity |].
  cbn. intros H. destruct (Text.chars_acc s). now rewrite H.
Qed.

(** A text that starts at a character is the concatenation of its
    characters. *)
Lemma str_chars_join (s : string) :
  starts_whole s = true -> String.concat "" (Text.str_chars s) = s.
Proof.
  intros H. pose proof (chars_acc_join s) as J.
  now rewrite (chars_acc_whole s H) in J.
Qed.

Lemma chars_acc_shape (s : string) :
  continuation_only (fst (Text.chars_acc s)) = true
  /\ forallb is_character (snd (Text.chars_acc s)) = true.
Proof.
  induction s as [| c s [IHk IHl]]; [now split |].
  cbn [Text.chars_acc]. destruct (Text.chars_acc s) as [k l]. cbn [fst snd] in *.
  destruct (Text.is_lead_byte c) eqn:E; cbn [fst snd].
  - split; [reflexivity |]. cbn. now rewrite E, IHk, IHl.
  - split; [| exact IHl]. cbn. now rewrite E, IHk.
Qed.

Lemma chars_acc_continuation (k t : string) :
  continuation_only k = true ->
  Text.chars_acc (k ++ t)
  = (k ++ fst (Text.chars_acc t), snd (Text.chars_acc t)).
Proof.
  induction k as [| c k IH]; intros H.
  - cbn. now destruct (Text.chars_acc t).
  - cbn in H. apply andb_prop in H. destruct H as [Hc Hk].
    apply negb_true_iff in Hc.
    cbn [append Text.chars_acc]. rewrite (IH Hk), Hc. reflexivity.
Qed.

Lemma concat_characters_whole (l : list string) :
  forallb is_character l = true -> starts_whole (String.concat "" l) = true.
Proof.
  destruct l as [| ch l]; [reflexivity |].
  cbn [forallb]. intros H. apply andb_prop in H. destruct H as [Hch _].
  rewrite concat_empty_cons. destruct ch as [| c k]; [discriminate Hch |].
  cbn in *. now apply andb_prop in Hch.
Qed.

(** Cutting a concatenation of characters gives the characters back. *)
Lemma str_chars_concat (l : list string) :
  forallb is_character l = true -> Text.str_chars (String.concat "" l) = l.
Proof.
  induction l as [| ch l IH]; [reflexivity |].
  intros H. pose proof (concat_characters_whole _ H) as Hwhole.
  cbn [forallb] in H. apply andb_prop in H. destruct H as [Hch Hl].
  rewrite concat_empty_cons in *.
  destruct ch as [| c k]; [discriminate Hch |].
  cbn in Hch. apply andb_prop in Hch. destruct Hch as [Hc Hk].
  unfold Text.str_chars. cbn [append Text.chars_acc].
  rewrite (chars_acc_continuation k _ Hk), Hc. cbn [snd].
  rewrite (chars_acc_whole _ (concat_characters_whole l Hl)), string_app_nil_r.
  f_equal. exact (IH Hl).
Qed.

Lemma forallb_firstn {A : Type} (f : A -> bool) (n : nat) (l : list A) :
  forallb f l = true -> forallb f (firstn n l) = true.
Proof.
  revert l. induction n as [| n IH]; intros l H; [reflexivity |].
  destruct l as [| x l]; [reflexivity |].
  cbn in *. apply andb_prop in H. destruct H as [Hx Hl]. now rewrite Hx, IH.
Qed.

(** [s[:n]] keeps the first [n] characters, or all of them when there are
    fewer. *)
Lemma str_take_chars (n : nat) (s : string) :
  Text.str_chars (Text.str_take n s) = firstn n (Text.str_chars s).
Proof.
  unfold Text.str_take. apply str_chars_concat. apply forallb_firstn.
  exact (proj2 (chars_acc_shape s)).
Qed.

Lemma str_take_prefix (n : nat) (s : string) :
  starts_whole s = true -> String.prefix (Text.str_take n s) s = true.
Proof.
  intros H. unfold Text.str_take.
  rewrite <- (str_chars_join s H) at 2.
  rewrite <- (firstn_skipn n (Text.str_chars s)) at 2.
  rewrite concat_empty_app. apply prefix_app.
Qed.

(** ** What the error texts carry *)

(** The text that reports a body that is not JSON shows the body from its
    start and never more than 200 characters of it: all of it when it has no
    more than 200. *)
Theorem non_json_text_shows_at_most_200_characters :
  forall (rt : PyRuntime) (e : env rt) (a : args) (r : http_response rt) (ex : exn),
    client_get e (request e a) = Ok r ->
    200 <= status_code r <= 299 ->
    body_json r = Raise ex ->
    exc_type ex = JSONDecodeError ->
    exists shown,
      search_flights e a
      = Ok ("Error: API returned non-JSON response. Content start: " ++ shown)
      /\ Text.str_len shown = Nat.min 200 (Text.str_len (text r))
      /\ (starts_whole (text r) = true -> String.prefix shown (text r) = true)
      /\ (starts_whole (text r) = true -> (Text.str_len (text r) <= 200)%nat ->
          shown = text r).
Proof.
  intros rt e a r ex Hget Hstatus Hbody Hcls.
  exists (Text.str_take 200 (text r)). split; [| split; [| split]].
  - unfold search_flights. rewrite Hget. cbn [bind].
    rewrite (raise_for_status_2xx r Hstatus). cbn [bind].
    unfold read_reply. now rewrite Hbody, Hcls.
  - unfold Text.str_len. rewrite str_take_chars. apply length_firstn.
  - apply str_take_prefix.
  - intros Hwhole Hlen. unfold Text.str_take.
    rewrite firstn_all2 by exact Hlen. now apply str_chars_join.
Qed.

(** A body of 250 letters is shown by its first 200. *)
Lemma non_json_text_shows_at_most_200_characters_witness :
  exists shown,
    search_flights
      (Plain.answering (Ok (Sample.html_reply (Text.str_repeat "a" 250)))) Plain.one_way
    = Ok ("Error: API returned non-JSON response. Content start: " ++ shown)
    /\ Text.str_len shown = 200%nat
    /\ String.prefix shown (Text.str_repeat "a" 250) = true.
Proof.
  destruct (non_json_text_shows_at_most_200_characters Plain.runtime
              (Plain.answering (Ok (Sample.html_reply (Text.str_repeat "a" 250))))
              Plain.one_way (Sample.html_reply (Text.str_repeat "a" 250))
              (Exn JSONDecodeError "Expecting value: line 1 column 1 (char 0)"))
    as (shown & Hout & Hlen & Hprefix & _).
  - reflexivity.
  - cbn. lia.
  - reflexivity.
  - reflexivity.
  - exists shown. split; [exact Hout |]. split; [exact Hlen |].
    apply Hprefix. reflexivity.
Defined.

(** Only a [JSONDecodeError] gets the non-JSON text.  Any other exception
    raised while the body is read is reported by the outer handlers, and the
    body is not shown. *)
Theorem other_parse_failures_reach_the_outer_handlers :
  forall (rt : PyRuntime) (e : env rt) (a : args) (r : http_response rt) (ex : exn),
    client_get e (request e a) = Ok r ->
    200 <= status_code r <= 299 ->
    body_json r = Raise ex ->
    exc_type ex <> JSONDecodeError ->
    search_flights e a
    = Ok ((if is_HTTPError (exc_type ex)
           then "Error fetching flight data: "
           else "An unexpected error occurred: ") ++ exc_str ex).
Proof.
  intros rt e a r ex Hget Hstatus Hbody Hcls.
  unfold search_flights. rewrite Hget. cbn [bind].
  rewrite (raise_for_status_2xx r Hstatus). cbn [bind].
  unfold read_reply. rewrite Hbody.
  destruct ex as [cls msg]. cbn in Hcls.
  destruct cls; try contradiction; reflexivity.
Qed.

(** A body that cannot be decoded as text is an unexpected error. *)
Lemma other_parse_failures_reach_the_outer_handlers_witness :
  search_flights (Plain.answering (Ok Sample.undecodable_reply)) Plain.one_way
  = Ok "An unexpected error occurred: 'utf-8' codec can't decode byte 0xff".
Proof.
  apply (other_parse_failures_reach_the_outer_handlers Plain.runtime
           (Plain.answering (Ok Sample.undecodable_reply)) Plain.one_way
           Sample.undecodable_reply
           (Exn ValueError "'utf-8' codec can't decode byte 0xff")).
  - reflexivity.
  - cbn. lia.
  - reflexivity.
  - discriminate.
Defined.

(** ** Telling the outcomes apart *)

Section Outcomes.

Context {rt : PyRuntime}.

(** The three texts a summary can be. *)
Lemma summarize_text (data : json rt) (s : string) :
  summarize data = Ok s ->
  String.prefix "API Error: " s = true
  \/ s = "No flights found for the given criteria."
  \/ String.prefix "Found " s = true.
Proof.
  unfold summarize. intros H.
  apply bind_ok in H. destruct H as (summary_info & _ & H).
  apply bind_ok in H. destruct H as (err_cnt & _ & H).
  destruct (py_ne_str err_cnt "OK").
  - apply bind_ok in H. destruct H as (err_msg & _ & H).
    injection H as <-. left. exact (prefix_app "API Error: " _).
  - apply bind_ok in H. destruct H as (goods_list & _ & H).
    apply bind_ok in H. destruct H as (goods & _ & H).
    destruct (negb (py_truthy goods)).
    + injection H as <-. right. now left.
    + apply bind_ok in H. destruct H as (n & _ & H).
      apply bind_ok in H. destruct H as (top & _ & H).
      apply bind_ok in H. destruct H as (blocks & _ & H).
      injection H as <-. right. right. exact (prefix_app "Found " _).
Qed.

Lemma on_error_text (ex : exn) :
  exists s, on_error ex = Ok s
            /\ (String.prefix "Error fetching flight data: " s = true
                \/ String.prefix "An unexpected error occurred: " s = true).
Proof.
  unfold on_error. destruct (is_HTTPError (exc_type ex)); eexists; split;
    try reflexivity.
  - left. exact (prefix_app "Error fetching flight data: " _).
  - right. exact (prefix_app "An unexpected error occurred: " _).
Qed.

End Outcomes.

(** When the summary is asked for, the text returned always opens in one of
    six ways, one per outcome: a failed request, a body that is not JSON, an
    unexpected error, an error reported by the service, no offers, or a
    listing.  Once a reply has been parsed, it is never the first two: a
    failure met while rendering is always reported as unexpected. *)
Theorem text_opens_with_its_outcome :
  forall (rt : PyRuntime) (e : env rt) (a : args),
    raw_json a = false ->
    exists s,
      search_flights e a = Ok s
      /\ (String.prefix "Error fetching flight data: " s = true
          \/ String.prefix "Error: API returned non-JSON response. Content start: " s = true
          \/ String.prefix "An unexpected error occurred: " s = true
          \/ String.prefix "API Error: " s = true
          \/ s = "No flights found for the given criteria."
          \/ String.prefix "Found " s = true)
      /\ (forall data,
             parsed_reply e a data ->
             String.prefix "An unexpected error occurred: " s = true
             \/ String.prefix "API Error: " s = true
             \/ s = "No flights found for the given criteria."
             \/ String.prefix "Found " s = true).
Proof.
  intros rt e a Hraw.
  assert (Hparsed : forall data,
             parsed_reply e a data ->
             exists s, search_flights e a = Ok s
                       /\ (String.prefix "An unexpected error occurred: " s = true
                           \/ String.prefix "API Error: " s = true
                           \/ s = "No flights found for the given criteria."
                           \/ String.prefix "Found " s = true)).
  { intros data Hreply. rewrite (search_flights_parsed e a _ Hreply), Hraw.
    destruct (summarize data) as [s | ex] eqn:Hsum.
    - exists s. split; [reflexivity |]. right. now apply summarize_text in Hsum.
    - cbn [try_except]. unfold on_error.
      rewrite (raises_plain_summarize data ex Hsum).
      eexists. split; [reflexivity |]. left.
      exact (prefix_app "An unexpected error occurred: " _). }
  assert (Hall : exists s,
             search_flights e a = Ok s
             /\ (String.prefix "Error fetching flight data: " s = true
                 \/ String.prefix "Error: API returned non-JSON response. Content start: " s
                    = true
                 \/ String.prefix "An unexpected error occurred: " s = true
                 \/ String.prefix "API Error: " s = true
                 \/ s = "No flights found for the given criteria."
                 \/ String.prefix "Found " s = true)).
  { destruct (client_get e (request e a)) as [r | ex] eqn:Hget.
    - destruct (Z_le_dec 200 (status_code r)) as [Hlo | Hlo];
        [destruct (Z_le_dec (status_code r) 299) as [Hhi | Hhi] |].
      + destruct (body_json r) as [data | ex] eqn:Hbody.
        * destruct (Hparsed data) as (s & Hs & Hkind).
          { exists r. now repeat split. }
          exists s. split; [exact Hs |]. tauto.
        * unfold search_flights. rewrite Hget. cbn [bind].
          rewrite (raise_for_status_2xx r (conj Hlo Hhi)). cbn [bind].
          unfold read_reply. rewrite Hbody.
          destruct ex as [cls msg].
          destruct cls; cbn [exc_type try_except];
            match goal with
            | |- exists s, on_error ?x = Ok s /\ _ =>
                destruct (on_error_text x) as (s & Hs & Hk);
                exists s; split; [exact Hs | tauto]
            | |- _ =>
                eexists; split; [reflexivity |]; right; left;
                exact (prefix_app "Error: API returned non-JSON response. Content start: " _)
            end.
      + unfold search_flights. rewrite Hget. cbn [bind].
        rewrite (raise_for_status_other r) by lia. cbn [bind try_except].
        eexists. split; [reflexivity |]. left.
        exact (prefix_app "Error fetching flight data: " _).
      + unfold search_flights. rewrite Hget. cbn [bind].
        rewrite (raise_for_status_other r) by lia. cbn [bind try_except].
        eexists. split; [reflexivity |]. left.
        exact (prefix_app "Error fetching flight data: " _).
    - unfold search_flights. rewrite Hget. cbn [bind try_except].
      destruct (on_error_text ex) as (s & -> & Hk).
      exists s. split; [reflexivity | tauto]. }
  destruct Hall as (s & Hs & Hkind).
  exists s. split; [exact Hs |]. split; [exact Hkind |].
  intros data Hreply. destruct (Hparsed data Hreply) as (s' & Hs' & Hkind').
  rewrite Hs in Hs'. injection Hs' as <-. exact Hkind'.
Qed.

(** A reply whose only offer does not render opens as an unexpected error. *)
Lemma text_opens_with_its_outcome_witness :
  exists s,
    search_flights
      (Plain.answering (Ok (Plain.ok_reply (Plain.listing [Sample.broken_offer]))))
      Plain.one_way
    = Ok s
    /\ String.prefix "An unexpected error occurred: " s = true.
Proof.
  destruct (text_opens_with_its_outcome Plain.runtime
              (Plain.answering (Ok (Plain.ok_reply (Plain.listing [Sample.broken_offer]))))
              Plain.one_way eq_refl)
    as (s & Hs & _ & _).
  exists s. split; [exact Hs |].
  vm_compute in Hs. injection Hs as <-. reflexivity.
Defined.

(** ** The raw flag and the shape of the offer list *)

Section Shape.

Context {rt : PyRuntime}.

Lemma raise_for_status_ok (r : http_response rt) :
  raise_for_status r = Ok tt -> 200 <= status_code r <= 299.
Proof.
  unfold raise_for_status.
  destruct (200 <=? status_code r) eqn:Hlo; destruct (status_code r <=? 299) eqn:Hhi;
    cbn; try discriminate.
  intros _. apply Z.leb_le in Hlo. apply Z.leb_le in Hhi. now split.
Qed.

Lemma str_chars_nonempty (s : string) :
  s <> "" -> starts_whole s = true -> Text.str_chars s <> [].
Proof.
  intros Hne Hwhole Hnil. apply Hne.
  rewrite <- (str_chars_join s Hwhole), Hnil. reflexivity.
Qed.

End Shape.

(** [raw_json] changes neither the request that is sent nor the text that
    reports a failure: it only matters once a reply has been parsed. *)
Theorem raw_flag_matters_only_after_parsing :
  forall (rt : PyRuntime) (e : env rt) (a : args) (b : bool),
    request e (with_raw_json b a) = request e a
    /\ ((forall data, ~ parsed_reply e a data) ->
        search_flights e (with_raw_json b a) = search_flights e a).
Proof.
  intros rt e a b.
  assert (Hreq : request e (with_raw_json b a) = request e a) by reflexivity.
  split; [exact Hreq |].
  intros Hnone. unfold search_flights. rewrite Hreq.
  destruct (client_get e (request e a)) as [r | ex] eqn:Hget; [| reflexivity].
  cbn [bind]. destruct (raise_for_status r) as [[] | ex] eqn:Hstatus; [| reflexivity].
  cbn [bind]. unfold read_reply.
  destruct (body_json r) as [data | ex] eqn:Hbody; [| reflexivity].
  exfalso. apply (Hnone data). exists r.
  split; [exact Hget |]. split; [now apply raise_for_status_ok | exact Hbody].
Qed.

(** A refused request reads the same with and without the raw flag. *)
Lemma raw_flag_matters_only_after_parsing_witness :
  search_flights
    (Plain.answering (Raise (Exn ConnectError "All connection attempts failed")))
    (with_raw_json true Plain.one_way)
  = search_flights
      (Plain.answering (Raise (Exn ConnectError "All connection attempts failed")))
      Plain.one_way.
Proof.
  apply (proj2 (raw_flag_matters_only_after_parsing Plain.runtime _ _ true)).
  intros data (r & Hget & _). discriminate Hget.
Defined.

(** The offers must come as a list.  A [Goods] value that is truthy and is
    not a list (a single offer given as an object, a text, a number) is not
    rendered: the call returns an unexpected-error text. *)
Theorem offers_must_be_a_list :
  forall (rt : PyRuntime) (e : env rt) (a : args)
         (members summary goods_list : list (string * json rt)) (goods : json rt),
    parsed_reply e a (JObj members) ->
    raw_json a = false ->
    lookup "GoodsSummary" members = Some (JObj summary) ->
    lookup "errCnt" summary = Some (JStr "OK") ->
    lookup "GoodsList" members = Some (JObj goods_list) ->
    lookup "Goods" goods_list = Some goods ->
    is_list goods = false ->
    py_truthy goods = true ->
    (forall s, goods = JStr s -> starts_whole s = true) ->
    exists ex,
      is_HTTPError (exc_type ex) = false
      /\ search_flights e a = Ok ("An unexpected error occurred: " ++ exc_str ex).
Proof.
  intros rt e a members summary goods_list goods
         Hreply Hraw Hs Hcnt Hlist Hgoods Hnolist Htruthy Htext.
  assert (Hsum : exists ex, summarize (JObj members) = Raise ex).
  { rewrite (summarize_ok members summary Hs Hcnt).
    rewrite py_get_members. unfold member_or at 1. rewrite Hlist. cbn [bind].
    rewrite py_get_members. unfold member_or at 1. rewrite Hgoods. cbn [bind].
    rewrite Htruthy. cbn [negb].
    destruct goods as [| b | z | f | s | l | m]; try discriminate Hnolist;
      try discriminate Htruthy; try (eexists; reflexivity).
    cbn [py_len py_slice_items bind].
    assert (Hchars : Text.str_chars s <> []).
    { apply str_chars_nonempty; [| now apply Htext].
      intros ->. discriminate Htruthy. }
    destruct (Text.str_chars s) as [| ch rest]; [contradiction |].
    eexists. reflexivity. }
  destruct Hsum as [ex Hex]. exists ex.
  pose proof (raises_plain_summarize _ ex Hex) as Hplain.
  split; [exact Hplain |].
  rewrite (search_flights_parsed e a _ Hreply), Hraw, Hex.
  cbn [try_except]. unfold on_error. now rewrite Hplain.
Qed.

(** A single offer given as an object, not in a list, is not rendered. *)
Lemma offers_must_be_a_list_witness :
  exists ex,
    is_HTTPError (exc_type ex) = false
    /\ search_flights
         (Plain.answering
            (Ok (Plain.ok_reply
                   (JObj [ Plain.summary_ok;
                           ("GoodsList", JObj [("Goods", Plain.fare_offer)]) ]))))
         Plain.one_way
       = Ok ("An unexpected error occurred: " ++ exc_str ex).
Proof.
  eapply (offers_must_be_a_list Plain.runtime _ _ _
            [("errCnt", JStr "OK")] [("Goods", Plain.fare_offer)] Plain.fare_offer).
  - eexists. split; [reflexivity |]. split; [| reflexivity]. cbn. lia.
  - reflexivity.
  - reflexivity.
  - reflexivity.
  - reflexivity.
  - reflexivity.
  - reflexivity.
  - reflexivity.
  - intros s Hs. discriminate Hs.
Defined.
